(** * coalib.settings.Setting: typed configuration values

    A shallow embedding of [coalib/settings/Setting.py] together with the
    pieces of the Python runtime it calls ([str.strip], [int], [dict],
    [os.path] on a POSIX host), followed by the properties of the
    value/conversion/path model.

    Python exceptions are values of an error monad; objects are records;
    [self.x = v] is a record update; a list comprehension is a monadic map
    that stops at the first exception. *)

From Stdlib Require Import String Ascii List ZArith Bool Lia DecimalString.
Import ListNotations.
Local Open Scope list_scope.
Local Open Scope string_scope.

(* ================================================================== *)
(** ** The Python runtime *)

Module Py.

(** The two exception classes raised in [Setting.py]. *)
Inductive exn : Type :=
| ValueError (msg : string)
| TypeError (msg : string).

Inductive result (A : Type) : Type :=
| Ok (a : A)
| Raise (e : exn).
Arguments Ok {A} a.
Arguments Raise {A} e.

Definition bind {A B} (m : result A) (k : A -> result B) : result B :=
  match m with
  | Ok a => k a
  | Raise e => Raise e
  end.

(** [[f(x) for x in l]]: elements are converted left to right and the
    first exception aborts the comprehension. *)
Fixpoint comprehension {A B} (f : A -> result B) (l : list A)
  : result (list B) :=
  match l with
  | [] => Ok []
  | x :: r =>
      bind (f x) (fun y =>
      bind (comprehension f r) (fun ys => Ok (y :: ys)))
  end.

(** [str.isspace] on the code points below 256. *)
Definition isspace (c : ascii) : bool :=
  let n := nat_of_ascii c in
  ((9 <=? n) && (n <=? 13) || (28 <=? n) && (n <=? 32)
   || (n =? 133) || (n =? 160))%nat.

Fixpoint lstrip (s : string) : string :=
  match s with
  | EmptyString => EmptyString
  | String c r => if isspace c then lstrip r else s
  end.

Fixpoint rstrip (s : string) : string :=
  match s with
  | EmptyString => EmptyString
  | String c r =>
      match rstrip r with
      | EmptyString => if isspace c then EmptyString else String c EmptyString
      | r' => String c r'
      end
  end.

Definition strip (s : string) : string := lstrip (rstrip s).

Fixpoint startswith (s pre : string) {struct pre} : bool :=
  match pre with
  | EmptyString => true
  | String a pre' =>
      match s with
      | EmptyString => false
      | String b s' => Ascii.eqb b a && startswith s' pre'
      end
  end.

Fixpoint endswith_char (s : string) (c : ascii) : bool :=
  match s with
  | EmptyString => false
  | String d EmptyString => Ascii.eqb d c
  | String _ r => endswith_char r c
  end.

(** [s.rfind(c)]: index of the last occurrence, [-1] when there is none. *)
Fixpoint rfind_from (c : ascii) (s : string) (i last : Z) : Z :=
  match s with
  | EmptyString => last
  | String d r => rfind_from c r (i + 1) (if Ascii.eqb d c then i else last)
  end.

Definition rfind (s : string) (c : ascii) : Z := rfind_from c s 0 (-1).

(** [s[:i]] for [0 <= i]. *)
Definition slice_to (s : string) (i : Z) : string :=
  substring 0 (Z.to_nat i) s.

(** [s.rstrip(c)] for a one-character argument. *)
Fixpoint rstrip_char (c : ascii) (s : string) : string :=
  match s with
  | EmptyString => EmptyString
  | String d r =>
      match rstrip_char c r with
      | EmptyString => if Ascii.eqb d c then EmptyString else String d EmptyString
      | r' => String d r'
      end
  end.

(** [s == c * len(s)] *)
Fixpoint all_char (c : ascii) (s : string) : bool :=
  match s with
  | EmptyString => true
  | String d r => Ascii.eqb d c && all_char c r
  end.

(** [c in s] *)
Fixpoint contains_char (c : ascii) (s : string) : bool :=
  match s with
  | EmptyString => false
  | String d r => Ascii.eqb d c || contains_char c r
  end.

(** [s.split(c)] for a one-character separator. *)
Fixpoint split (c : ascii) (s : string) : list string :=
  match s with
  | EmptyString => [EmptyString]
  | String d r =>
      if Ascii.eqb d c then EmptyString :: split c r
      else match split c r with
           | h :: t => String d h :: t
           | [] => [String d EmptyString]
           end
  end.

(** The [__str__] protocol. *)
Class Str (A : Type) := str : A -> string.

#[export] Instance Str_string : Str string := fun s => s.
#[export] Instance Str_bool : Str bool :=
  fun b => if b then "True" else "False".
#[export] Instance Str_Z : Str Z :=
  fun z => NilZero.string_of_int (Z.to_int z).

(** [int(s)] on a string, base 10: surrounding whitespace is ignored, one
    sign is allowed, and single underscores may separate digits. *)
Definition digit (c : ascii) : option Z :=
  let n := nat_of_ascii c in
  if ((48 <=? n) && (n <=? 57))%nat then Some (Z.of_nat n - 48)%Z else None.

Fixpoint digits (s : string) (acc : Z) (after_digit : bool) : option Z :=
  match s with
  | EmptyString => if after_digit then Some acc else None
  | String c r =>
      match digit c with
      | Some d => digits r (10 * acc + d)%Z true
      | None =>
          if Ascii.eqb c "_" && after_digit then digits r acc false
          else None
      end
  end.

Definition invalid_literal (s : string) : exn :=
  ValueError ("invalid literal for int() with base 10: '" ++ s ++ "'").

Definition int_of_str (s : string) : result Z :=
  let body := strip s in
  let parsed :=
    match body with
    | String "-" r => option_map Z.opp (digits r 0 false)
    | String "+" r => digits r 0 false
    | _ => digits body 0 false
    end in
  match parsed with
  | Some z => Ok z
  | None => Raise (invalid_literal s)
  end.

(** Equality of keys, as [dict] needs it. *)
Class EqDec (A : Type) := eq_dec : forall x y : A, {x = y} + {x <> y}.

#[export] Instance EqDec_string : EqDec string := string_dec.
#[export] Instance EqDec_Z : EqDec Z := Z.eq_dec.

(** A [dict] (and an [OrderedDict]): the items in insertion order, every
    key once.  [d[k] = v] keeps the position of a key already present. *)
Definition dict (K V : Type) : Type := list (K * V).

Fixpoint setitem {K V} `{EqDec K} (d : dict K V) (k : K) (v : V)
  : dict K V :=
  match d with
  | [] => [(k, v)]
  | (k', v') :: r =>
      if eq_dec k' k then (k', v) :: r else (k', v') :: setitem r k v
  end.

Fixpoint get {K V} `{EqDec K} (d : dict K V) (k : K) : option V :=
  match d with
  | [] => None
  | (k', v') :: r => if eq_dec k' k then Some v' else get r k
  end.

(** [dict(pairs)] and [OrderedDict(pairs)]. *)
Definition dict_of {K V} `{EqDec K} (items : list (K * V)) : dict K V :=
  fold_left (fun d kv => setitem d (fst kv) (snd kv)) items [].

End Py.

Import Py.

Notation "x <- m ;; k" := (Py.bind m (fun x => k))
  (at level 61, m at next level, right associativity).

(* ================================================================== *)
(** ** [os.path] on a POSIX host *)

Module posixpath.

Definition sep : ascii := "/"%char.

Definition isabs (s : string) : bool := startswith s "/".

(** [join(a, b)] with one trailing component, as [Setting.py] calls it. *)
Definition join (a b : string) : string :=
  if startswith b "/" then b
  else if (a =? "") || endswith_char a sep then a ++ b
  else a ++ "/" ++ b.

Definition dirname (p : string) : string :=
  let i := (rfind p sep + 1)%Z in
  let head := slice_to p i in
  if negb (head =? "") && negb (all_char sep head)
  then rstrip_char sep head
  else head.

(** One turn of the loop of [normpath] over the components. *)
Definition normpath_step (initial_slashes : Z) (new_comps : list string)
  (comp : string) : list string :=
  if (comp =? "") || (comp =? ".") then new_comps
  else if negb (comp =? "..")
          || ((initial_slashes =? 0)%Z
              && match new_comps with [] => true | _ => false end)
          || match new_comps with
             | [] => false
             | _ => last new_comps "" =? ".."
             end
  then (new_comps ++ [comp])%list
  else removelast new_comps.

Definition initial_slashes (path : string) : Z :=
  if startswith path "/" then
    if startswith path "//" && negb (startswith path "///") then 2%Z
    else 1%Z
  else 0%Z.

Definition normpath (path : string) : string :=
  if path =? "" then "."
  else
    let ini := initial_slashes path in
    let comps := fold_left (normpath_step ini) (split sep path) [] in
    let joined := String.concat "/" comps in
    let path' :=
      if (ini =? 0)%Z then joined
      else if (ini =? 1)%Z then "/" ++ joined
      else "//" ++ joined in
    if path' =? "" then "." else path'.

(** [abspath] reads the working directory of the process: [cwd] is
    [os.getcwd()]. *)
Definition abspath (cwd : string) (path : string) : string :=
  normpath (if isabs path then path else join cwd path).

End posixpath.

(* ================================================================== *)
(** ** The text-value primitive

    [StringConverter] comes from the package [coala_utils]; [Setting]
    inherits from it.  The model covers what [Setting.py] uses: the stored
    text, the string form and the iteration over delimited elements, with
    backslash as the escape character.  Delimiters are single characters,
    as the defaults [','] and [';'] are. *)

Module StringConverter.

Definition backslash : ascii := "\"%char.

Record t : Type := mk {
  _value : string;
  strip_whitespaces : bool;
  list_delimiters : list ascii;
  remove_empty_iter_elements : bool
}.

(** Removes the escape characters: a backslash yields the character after
    it, a trailing backslash disappears. *)
Fixpoint unescape (s : string) : string :=
  match s with
  | EmptyString => EmptyString
  | String c r =>
      if Ascii.eqb c backslash then
        match r with
        | EmptyString => EmptyString
        | String d r' => String d (unescape r')
        end
      else String c (unescape r)
  end.

(** Whether the position after [s] is escaped: [s] ends in an odd number
    of backslashes.  [esc] is the state before [s]. *)
Fixpoint position_is_escaped (s : string) (esc : bool) : bool :=
  match s with
  | EmptyString => esc
  | String c r =>
      position_is_escaped r (if Ascii.eqb c backslash then negb esc else false)
  end.

Definition is_delimiter (delims : list ascii) (c : ascii) : bool :=
  existsb (Ascii.eqb c) delims.

(** Splits at every delimiter that is not escaped; the pieces keep their
    backslashes. *)
Fixpoint unescaped_split (delims : list ascii) (s : string) (esc : bool)
  : list string :=
  match s with
  | EmptyString => [EmptyString]
  | String c r =>
      let esc' := if Ascii.eqb c backslash then negb esc else false in
      if negb esc && is_delimiter delims c
      then EmptyString :: unescaped_split delims r esc'
      else match unescaped_split delims r esc' with
           | h :: t => String c h :: t
           | [] => [String c EmptyString]
           end
  end.

Definition unescaped_rstrip (s : string) : string :=
  let new_string := rstrip s in
  if negb (s =? new_string) && position_is_escaped new_string false
  then match String.get (String.length new_string) s with
       | Some c => new_string ++ String c EmptyString
       | None => new_string
       end
  else new_string.

Definition unescaped_strip (s : string) : string :=
  lstrip (unescaped_rstrip s).

Definition nonempty (s : string) : bool := negb (s =? "").

Definition escaped_list (self : t) : list string :=
  let raw := unescaped_split (list_delimiters self) (_value self) false in
  let l := if strip_whitespaces self then map unescaped_strip raw else raw in
  if remove_empty_iter_elements self then filter nonempty l else l.

Definition unescaped_list (self : t) : list string :=
  let raw := unescaped_split (list_delimiters self) (_value self) false in
  let l := if strip_whitespaces self then map unescaped_strip raw else raw in
  let u := map unescape l in
  if remove_empty_iter_elements self then filter nonempty u else u.

Definition default_list_delimiters : list ascii := [","%char; ";"%char].

Definition __init__ {V} `{Str V} (value : V) (strip_whitespaces : bool)
  (list_delimiters : list ascii) (remove_empty_iter_elements : bool) : t :=
  let text := str value in
  {| _value := if strip_whitespaces then unescaped_strip text else text;
     strip_whitespaces := strip_whitespaces;
     list_delimiters := list_delimiters;
     remove_empty_iter_elements := remove_empty_iter_elements |}.

(** [StringConverter(elem)]: every option at its default. *)
Definition new (elem : string) : t :=
  __init__ elem true default_list_delimiters true.

Definition value (self : t) : string := _value self.

Definition __str__ (self : t) : string := unescape (value self).

Definition __int__ (self : t) : result Z := int_of_str (__str__ self).

Definition __iter__ (self : t) (remove_backslashes : bool) : list string :=
  if remove_backslashes then unescaped_list self else escaped_list self.

End StringConverter.

(* ================================================================== *)
(** ** Collaborators of [Setting.py] that live elsewhere in coalib *)

(** Modelled from the spec: [coalib.results.SourcePosition] is not among
    the sources; the spec describes it as an origin that carries a file and,
    additionally, a line number ([Positioned(file: string, line: int)]).
    [Setting.py] reads the attributes [filename] and [line]. *)
Record SourcePosition : Type := {
  filename : string;
  line : Z
}.

Module Globbing.

Definition metachar (c : ascii) : bool :=
  Ascii.eqb c "*" || Ascii.eqb c "?" || Ascii.eqb c "[" || Ascii.eqb c "]".

(** Modelled from the spec: [glob_escape] of [coalib.parsing.Globbing] is
    not among the sources.  The spec takes it as a primitive
    [escape(pathSegment) -> string] that escapes every glob metacharacter
    ([*], [?], [[], []]) and writes the escaped form of [/a/[b]] as
    [/a/\[b\]]: every metacharacter gets a backslash in front.  The path
    functions below take the primitive as a parameter; this dialect serves
    the spec's worked example. *)
Fixpoint glob_escape (s : string) : string :=
  match s with
  | EmptyString => EmptyString
  | String c r =>
      if metachar c then String StringConverter.backslash (String c (glob_escape r))
      else String c (glob_escape r)
  end.

End Globbing.

(* ================================================================== *)
(** ** [class Setting(StringConverter)] *)

Module Setting.

(** [origin: (str, SourcePosition)] *)
Inductive Origin : Type :=
| OriginStr (s : string)
| OriginPos (p : SourcePosition).

Record t : Type := mk {
  base : StringConverter.t;
  to_append : bool;
  from_cli : bool;
  _key : string;
  _origin : Origin;
  length : Z
}.

(** The exceptions of [Setting.py], under the names the specification
    gives them. *)
Definition InvalidKeyError : exn :=
  ValueError "An empty key is not allowed for a setting.".

Definition IncompleteValueError_value : exn :=
  ValueError ("This property is invalid because the value is "
              ++ "incomplete. Please access the value of the "
              ++ "setting in a section to get the complete value.").

Definition IncompleteValueError_iteration : exn :=
  ValueError ("Iteration on this object is invalid because the "
              ++ "value is incomplete. Please access the value of "
              ++ "the setting in a section to iterate through it.").

Definition MissingOriginError : exn :=
  ValueError "Cannot determine path without origin.".

Definition LineNumberUnavailableError : exn :=
  TypeError ("Instantiated with str 'origin' "
             ++ "which does not have line numbers. "
             ++ "Use SourcePosition for line numbers.").

Definition IncompleteValueError (e : exn) : Prop :=
  e = IncompleteValueError_value \/ e = IncompleteValueError_iteration.

(** Attribute assignments [self.x = v]. *)
Definition set_to_append (self : t) (b : bool) : t :=
  mk (base self) b (from_cli self) (_key self) (_origin self) (length self).

Definition set_length (self : t) (n : Z) : t :=
  mk (base self) (to_append self) (from_cli self) (_key self) (_origin self) n.

(** [key] getter and setter. *)
Definition key (self : t) : string := _key self.

Definition set_key {K} `{Str K} (self : t) (key : K) : result t :=
  let newkey := str key in
  if newkey =? "" then Raise InvalidKeyError
  else Ok (mk (base self) (to_append self) (from_cli self) newkey
              (_origin self) (length self)).

(** The constructor.  [@enforce_signature] rejects arguments of another
    type than annotated; here the types of the parameters do.  [_key] does
    not exist before [self.key = key] has run: when the setter raises no
    object is returned. *)
Definition __init__ {K V} `{Str K} `{Str V} (key : K) (value : V)
  (origin : Origin) (strip_whitespaces : bool) (list_delimiters : list ascii)
  (from_cli : bool) (remove_empty_iter_elements : bool) (to_append : bool)
  : result t :=
  let self :=
    mk (StringConverter.__init__ value strip_whitespaces list_delimiters
          remove_empty_iter_elements)
       to_append from_cli "" origin 1 in
  self <- set_key self key ;;
  Ok (mk (base self) (Setting.to_append self) (Setting.from_cli self)
         (_key self) origin 1).

(** [Setting(key, value, origin)] with the other parameters at their
    defaults. *)
Definition new {K V} `{Str K} `{Str V} (key : K) (value : V) (origin : Origin)
  : result t :=
  __init__ key value origin true StringConverter.default_list_delimiters
    false true false.

(** [value]: the getter of [StringConverter] with the guard in front. *)
Definition value (self : t) : result string :=
  if to_append self then Raise IncompleteValueError_value
  else Ok (StringConverter._value (base self)).

Definition __iter__ (self : t) (remove_backslashes : bool)
  : result (list string) :=
  if to_append self then Raise IncompleteValueError_iteration
  else Ok (StringConverter.__iter__ (base self) remove_backslashes).

(** [__str__] is inherited: [unescape(self.value)], where [self.value] is
    the getter above. *)
Definition __str__ (self : t) : result string :=
  v <- value self ;;
  Ok (StringConverter.unescape v).

Definition origin (self : t) : string :=
  match _origin self with
  | OriginPos p => filename p
  | OriginStr s => s
  end.

Definition line_number (self : t) : result Z :=
  match _origin self with
  | OriginPos p => Ok (line p)
  | OriginStr _ => Raise LineNumberUnavailableError
  end.

Definition end_line_number (self : t) : result Z :=
  match _origin self with
  | OriginPos p => Ok (length self + line p - 1)%Z
  | OriginStr _ => Raise LineNumberUnavailableError
  end.

(** [__path__] is also called on plain strings:
    [Setting.__path__(elem, self.origin)]. *)
Inductive receiver : Type :=
| OfStr (s : string)
| OfSetting (s : t).

Definition receiver_str (self : receiver) : result string :=
  match self with
  | OfStr s => Ok s
  | OfSetting s => __str__ s
  end.

(** [self.origin] when [hasattr(self, 'origin')]. *)
Definition receiver_origin (self : receiver) : option string :=
  match self with
  | OfStr _ => None
  | OfSetting s => Some (origin s)
  end.

Section Paths.

(** [os.getcwd()] and [coalib.parsing.Globbing.glob_escape]. *)
Variable cwd : string.
Variable glob_escape : string -> string.

Definition __path__ (self : receiver) (origin : option string)
  (glob_escape_origin : bool) : result string :=
  s <- receiver_str self ;;
  let strrep := strip s in
  if posixpath.isabs strrep then Ok strrep
  else
    let origin :=
      match receiver_origin self with
      | Some own => if negb (own =? "") then Some own else origin
      | None => origin
      end in
    match origin with
    | None => Raise MissingOriginError
    | Some origin =>
        let origin := posixpath.abspath cwd (posixpath.dirname origin) in
        let origin := if glob_escape_origin then glob_escape origin
                      else origin in
        Ok (posixpath.normpath (posixpath.join origin strrep))
    end.

Definition __glob__ (self : receiver) (origin : option string)
  : result string :=
  __path__ self origin true.

Definition __path_list__ (self : t) : result (list string) :=
  elems <- __iter__ self true ;;
  comprehension (fun elem => __path__ (OfStr elem) (Some (origin self)) false)
    elems.

Definition __glob_list__ (self : t) : result (list string) :=
  elems <- __iter__ self true ;;
  comprehension (fun elem => __glob__ (OfStr elem) (Some (origin self)))
    elems.

End Paths.

End Setting.

(* ================================================================== *)
(** ** The module-level converters *)

Definition path := Setting.__path__.
Definition path_list := Setting.__path_list__.
Definition glob := Setting.__glob__.
Definition glob_list := Setting.__glob_list__.

Definition typed_list {A} (conversion_func : StringConverter.t -> result A)
  (setting : Setting.t) : result (list A) :=
  elems <- Setting.__iter__ setting true ;;
  comprehension (fun elem => conversion_func (StringConverter.new elem)) elems.

(** [str], [int] as conversion functions on a [StringConverter]. *)
Definition str_ (c : StringConverter.t) : result string :=
  Ok (StringConverter.__str__ c).

Definition int_ (c : StringConverter.t) : result Z :=
  StringConverter.__int__ c.

Definition str_list := typed_list str_.
Definition int_list := typed_list int_.

(** A dict comprehension [{key(x): val(x) for x in items}]: for every
    item the key is evaluated, then the value, then the entry is stored. *)
Fixpoint dict_comprehension {A K V} `{EqDec K} (key : A -> result K)
  (val : A -> result V) (items : list A) (d : dict K V)
  : result (dict K V) :=
  match items with
  | [] => Ok d
  | x :: r =>
      k <- key x ;;
      v <- val x ;;
      dict_comprehension key val r (setitem d k v)
  end.

(** [OrderedDict(gen)]: the tuples of a generator are pulled one at a
    time and stored; the generator raises where its element does. *)
Fixpoint OrderedDict {K V} `{EqDec K} (gen : list (result (K * V)))
  (d : dict K V) : result (dict K V) :=
  match gen with
  | [] => Ok d
  | Raise e :: _ => Raise e
  | Ok (k, v) :: r => OrderedDict r (setitem d k v)
  end.

(** [value_type(StringConverter(value)) if value != '' else default] *)
Definition value_or_default {V} (value_type : StringConverter.t -> result V)
  (default : V) (value : string) : result V :=
  if negb (value =? "") then value_type (StringConverter.new value)
  else Ok default.

(** A mapping-shaped [setting] is given by the key/text pairs that
    [dict(setting)] and [OrderedDict(setting)] read from it. *)
Definition typed_dict {K V} `{EqDec K}
  (key_type : StringConverter.t -> result K)
  (value_type : StringConverter.t -> result V) (default : V)
  (setting : list (string * string)) : result (dict K V) :=
  dict_comprehension
    (fun kv => key_type (StringConverter.new (fst kv)))
    (fun kv => value_or_default value_type default (snd kv))
    (dict_of setting) [].

Definition typed_ordered_dict {K V} `{EqDec K}
  (key_type : StringConverter.t -> result K)
  (value_type : StringConverter.t -> result V) (default : V)
  (setting : list (string * string)) : result (dict K V) :=
  OrderedDict
    (map (fun kv =>
            k <- key_type (StringConverter.new (fst kv)) ;;
            v <- value_or_default value_type default (snd kv) ;;
            Ok (k, v))
         (dict_of setting))
    [].

(* ================================================================== *)
(** ** Vocabulary of the specification *)

(** Steps 4 to 6 of [resolvePath], in the words of the specification: the
    origin's containing directory as an absolute path, the escaping of
    that directory, and the join with the relative text followed by the
    normalization. *)
Definition containing_directory (cwd origin : string) : string :=
  posixpath.abspath cwd (posixpath.dirname origin).

Definition escape_directory (glob_escape : string -> string)
  (escapeOrigin : bool) (directory : string) : string :=
  if escapeOrigin then glob_escape directory else directory.

Definition join_and_normalize (directory text : string) : string :=
  posixpath.normpath (posixpath.join directory text).

(** Step 2 of [resolvePath], in the words of the specification: prefer
    the value's own origin if non-empty, else the caller-supplied
    [explicitOrigin].  [None] is the absence of an origin. *)
Definition effective_origin (own explicitOrigin : option string)
  : option string :=
  match own with
  | Some o => if o =? "" then explicitOrigin else Some o
  | None => explicitOrigin
  end.

(** Steps 4 to 6 together, for a text that is not absolute. *)
Definition resolve_relative (cwd : string) (glob_escape : string -> string)
  (escapeOrigin : bool) (origin text : string) : string :=
  join_and_normalize
    (escape_directory glob_escape escapeOrigin
       (containing_directory cwd origin))
    (strip text).

(** What one element of a path list resolves to against [origin]. *)
Definition resolve_element (cwd : string) (glob_escape : string -> string)
  (escapeOrigin : bool) (origin elem : string) : string :=
  if posixpath.isabs (strip elem) then strip elem
  else resolve_relative cwd glob_escape escapeOrigin origin elem.

(** A single path component that names a file: not empty, no separator,
    neither [.] nor [..].  It may contain glob metacharacters. *)
Definition file_name (s : string) : bool :=
  negb (s =? "") && negb (s =? ".") && negb (s =? "..")
  && negb (contains_char posixpath.sep s).

(** What [normpath] keeps of a path: components, and the root in front
    of an absolute path. *)
Definition component (x : string) : Prop :=
  x <> "" /\ contains_char posixpath.sep x = false.

Definition root (p : string) : string :=
  if (posixpath.initial_slashes p =? 1)%Z then "/" else "//".

(** The settings a program can hold: built by the constructor, then
    changed through the key setter and the plain attributes. *)
Inductive constructed : Setting.t -> Prop :=
| constructed_init (K V : Type) (SK : Str K) (SV : Str V) (key : K)
    (value : V) origin sw ld fc re ta s :
    Setting.__init__ key value origin sw ld fc re ta = Ok s ->
    constructed s
| constructed_set_key (K : Type) (SK : Str K) (key : K) s s' :
    constructed s ->
    Setting.set_key s key = Ok s' ->
    constructed s'
| constructed_set_to_append s b :
    constructed s ->
    constructed (Setting.set_to_append s b)
| constructed_set_length s n :
    constructed s ->
    constructed (Setting.set_length s n).

(** An entry [(key, text)] of a mapping converts to [(k, v)]. *)
Definition converts_to {K V} (key_type : StringConverter.t -> result K)
  (value_type : StringConverter.t -> result V) (default : V)
  (entry : string * string) (out : K * V) : Prop :=
  key_type (StringConverter.new (fst entry)) = Ok (fst out)
  /\ (snd entry = "" -> snd out = default)
  /\ (snd entry <> "" ->
      value_type (StringConverter.new (snd entry)) = Ok (snd out)).

(** The conversion of one entry of a mapping by the dict converters:
    the key, then the value or the default. *)
Definition convert_entry {K V} (key_type : StringConverter.t -> result K)
  (value_type : StringConverter.t -> result V) (default : V)
  (entry : string * string) : result (K * V) :=
  k <- key_type (StringConverter.new (fst entry)) ;;
  v <- value_or_default value_type default (snd entry) ;;
  Ok (k, v).

(** The value of the last pair of [l] whose key is [k]. *)
Definition last_value {K V} `{EqDec K} (l : list (K * V)) (k : K)
  : option V :=
  fold_left (fun acc kv => if eq_dec (fst kv) k then Some (snd kv) else acc)
    l None.

(* ================================================================== *)
(** ** Properties *)

Ltac string_cases :=
  repeat match goal with
    | |- context [String.eqb ?a ?b] =>
        let E := fresh "E" in
        destruct (String.eqb a b) eqn:E;
        [apply String.eqb_eq in E | apply String.eqb_neq in E]
    end.

(** *** The model on the specification's examples *)

Example normpath_collapses :
  posixpath.normpath "/a//b/./c/../d/" = "/a/b/d"
  /\ posixpath.normpath "../a/../../b" = "../../b"
  /\ posixpath.normpath "//a/.." = "//"
  /\ posixpath.normpath "///a/../.." = "/"
  /\ posixpath.normpath "" = ".".
Proof. repeat split. Qed.

Example dirname_of_origin :
  posixpath.dirname "/a/[b]/origin.cfg" = "/a/[b]"
  /\ posixpath.dirname "origin.cfg" = ""
  /\ posixpath.dirname "dir/" = "dir"
  /\ posixpath.dirname "//x" = "//".
Proof. repeat split. Qed.

Example resolve_config_ini :
  forall cwd glob_escape,
    path cwd glob_escape (Setting.OfStr "config.ini")
      (Some "/a/b/origin.cfg") false
    = Ok "/a/b/config.ini".
Proof. reflexivity. Qed.

Example iterate_elements :
  (s <- Setting.new "names" " a ,b;; c d " (Setting.OriginStr "") ;;
   Setting.__iter__ s true)
  = Ok ["a"; "b"; "c d"].
Proof. reflexivity. Qed.

Example line_number_of_plain_origin :
  (s <- Setting.new "key" "value" (Setting.OriginStr "/a/b/origin.cfg") ;;
   Setting.line_number s)
  = Raise Setting.LineNumberUnavailableError.
Proof. reflexivity. Qed.

(** *** Key (C9) *)

Lemma set_key_nonempty (K : Type) (SK : Str K) (k : K) (s s' : Setting.t) :
  Setting.set_key s k = Ok s' -> Setting.key s' = str k /\ str k <> "".
Proof.
  unfold Setting.set_key. string_cases; intros H; inversion H; subst.
  split; [reflexivity | assumption].
Qed.

Lemma init_key (K V : Type) (SK : Str K) (SV : Str V) (k : K) (value : V)
  origin sw ld fc re ta s :
  Setting.__init__ k value origin sw ld fc re ta = Ok s ->
  Setting.key s = str k /\ str k <> "".
Proof.
  unfold Setting.__init__, Setting.set_key. simpl.
  string_cases; simpl; intros H; inversion H; subst.
  split; [reflexivity | assumption].
Qed.

Lemma constructed_key_nonempty (s : Setting.t) :
  constructed s -> Setting.key s <> "".
Proof.
  induction 1 as [K V SK SV k v o sw ld fc re ta s H
                 | K SK k s s' _ _ H | s b _ IH | s n _ IH].
  - apply init_key in H. destruct H as [-> H]. exact H.
  - apply set_key_nonempty in H. destruct H as [-> H]. exact H.
  - exact IH.
  - exact IH.
Qed.

(** C9: a key whose string form is non-empty is stored, normalized by
    [str], by the constructor and by the setter, and the getter returns
    it; a key whose string form is empty makes both raise
    [InvalidKeyError]; no constructed setting has an empty key. *)
Theorem key_is_stored_and_never_empty :
  forall (K V : Type) (SK : Str K) (SV : Str V) (k : K) (value : V)
         origin sw ld fc re ta (s0 : Setting.t),
    (str k <> "" ->
       (exists s, Setting.__init__ k value origin sw ld fc re ta = Ok s
                  /\ Setting.key s = str k)
       /\ (exists s, Setting.set_key s0 k = Ok s /\ Setting.key s = str k))
    /\ (str k = "" ->
          Setting.__init__ k value origin sw ld fc re ta
            = Raise Setting.InvalidKeyError
          /\ Setting.set_key s0 k = Raise Setting.InvalidKeyError)
    /\ (forall s, constructed s -> Setting.key s <> "").
Proof.
  intros K V SK SV k value origin sw ld fc re ta s0.
  split; [| split].
  - intros Hk. apply String.eqb_neq in Hk.
    unfold Setting.__init__, Setting.set_key. simpl. rewrite Hk. simpl.
    split; eexists; split; reflexivity.
  - intros Hk. apply String.eqb_eq in Hk.
    unfold Setting.__init__, Setting.set_key. simpl. rewrite Hk. simpl.
    split; reflexivity.
  - exact constructed_key_nonempty.
Qed.

Lemma key_is_stored_and_never_empty_witness :
  (exists s, Setting.new "files" "a.py, b.py" (Setting.OriginStr "") = Ok s
             /\ Setting.key s = "files")
  /\ Setting.new "" "a.py" (Setting.OriginStr "") = Raise Setting.InvalidKeyError.
Proof.
  pose (s0 := Setting.mk (StringConverter.new "v") false false "k"
                (Setting.OriginStr "") 1).
  split.
  - destruct (key_is_stored_and_never_empty string string _ _ "files"
                "a.py, b.py" (Setting.OriginStr "") true
                StringConverter.default_list_delimiters false true false s0)
      as [H _].
    destruct H as [H _]; [discriminate | exact H].
  - destruct (key_is_stored_and_never_empty string string _ _ ""
                "a.py" (Setting.OriginStr "") true
                StringConverter.default_list_delimiters false true false s0)
      as [_ [H _]].
    destruct H as [H _]; [reflexivity | exact H].
Defined.

(** *** Append-pending values (C2) *)

(** C2: whatever the other arguments, a setting constructed with
    [to_append=True] raises [IncompleteValueError] both when its value is
    read and when it is iterated; once the flag is cleared both succeed,
    with the stored text and with the list of its elements. *)
Theorem append_pending_blocks_value_and_iteration :
  forall (K V : Type) (SK : Str K) (SV : Str V) (k : K) (v : V)
         origin sw ld fc re remove_backslashes,
    match Setting.__init__ k v origin sw ld fc re true with
    | Raise e => e = Setting.InvalidKeyError
    | Ok s =>
        Setting.value s = Raise Setting.IncompleteValueError_value
        /\ Setting.__iter__ s remove_backslashes
           = Raise Setting.IncompleteValueError_iteration
        /\ Setting.IncompleteValueError Setting.IncompleteValueError_value
        /\ Setting.IncompleteValueError Setting.IncompleteValueError_iteration
        /\ Setting.value (Setting.set_to_append s false)
           = Ok (StringConverter._value (Setting.base s))
        /\ Setting.__iter__ (Setting.set_to_append s false) remove_backslashes
           = Ok (StringConverter.__iter__ (Setting.base s) remove_backslashes)
    end.
Proof.
  intros K V SK SV k v origin sw ld fc re rb.
  unfold Setting.__init__, Setting.set_key. simpl.
  string_cases; simpl.
  - reflexivity.
  - unfold Setting.IncompleteValueError.
    repeat split; auto.
Qed.

(** *** Line numbers (C8) *)

(** C8: [line_number] and [end_line_number] succeed exactly when the
    origin is a [SourcePosition] and raise [LineNumberUnavailableError]
    otherwise; a successful end line is [length + line - 1], which is 12
    for [length = 3] and [line = 10]. *)
Theorem line_numbers_need_a_source_position :
  forall s : Setting.t,
    match Setting._origin s with
    | Setting.OriginPos p =>
        Setting.line_number s = Ok (line p)
        /\ Setting.end_line_number s = Ok (Setting.length s + line p - 1)%Z
    | Setting.OriginStr _ =>
        Setting.line_number s = Raise Setting.LineNumberUnavailableError
        /\ Setting.end_line_number s
           = Raise Setting.LineNumberUnavailableError
    end
    /\ (forall file,
          (s3 <- Setting.new "key" "value"
                   (Setting.OriginPos {| filename := file; line := 10 |}) ;;
           Setting.end_line_number (Setting.set_length s3 3))
          = Ok 12%Z).
Proof.
  intros s. split.
  - unfold Setting.line_number, Setting.end_line_number.
    destruct (Setting._origin s); split; reflexivity.
  - intros file. reflexivity.
Qed.

(** *** Paths (C1, C3, C4, C5, C10) *)

(** Strings and lists. *)

Lemma rstrip_keeps_head (c : ascii) (r : string) :
  isspace c = false -> rstrip (String c r) = String c (rstrip r).
Proof.
  intros Hc. simpl. rewrite Hc. destruct (rstrip r); reflexivity.
Qed.

Lemma isabs_inv (text : string) :
  posixpath.isabs text = true -> exists r, text = String "/" r.
Proof.
  unfold posixpath.isabs.
  destruct text as [| c r]; cbn [startswith]; [discriminate |].
  destruct (Ascii.eqb_spec c "/") as [-> | _]; intros H; [| discriminate H].
  exists r. reflexivity.
Qed.

Lemma strip_absolute (text : string) :
  posixpath.isabs text = true ->
  strip text = rstrip text /\ posixpath.isabs (strip text) = true.
Proof.
  intros H. destruct (isabs_inv text H) as [r ->].
  unfold strip. rewrite rstrip_keeps_head by reflexivity.
  change (lstrip (String "/" (rstrip r))) with (String "/" (rstrip r)).
  split; reflexivity.
Qed.

Lemma comprehension_total {A B : Type} (f : A -> result B) (g : A -> B)
  (l : list A) :
  (forall x, In x l -> f x = Ok (g x)) ->
  comprehension f l = Ok (map g l).
Proof.
  induction l as [| x r IH]; intros H; simpl.
  - reflexivity.
  - rewrite (H x) by (left; reflexivity). simpl.
    rewrite IH by (intros y Hy; apply H; right; exact Hy).
    reflexivity.
Qed.

Lemma append_empty_r (s : string) : s ++ "" = s.
Proof.
  induction s as [| c s IH]; simpl; [reflexivity | rewrite IH; reflexivity].
Qed.

Lemma split_not_nil (c : ascii) (s : string) : split c s <> [].
Proof.
  destruct s as [| d r]; simpl; [discriminate |].
  destruct (Ascii.eqb d c); [discriminate |].
  destruct (split c r); discriminate.
Qed.

Lemma append_assoc (a b c : string) : (a ++ b) ++ c = a ++ b ++ c.
Proof.
  induction a as [| x a IH]; simpl; [reflexivity | rewrite IH; reflexivity].
Qed.

Lemma split_at_sep (c : ascii) (a b : string) :
  split c (a ++ String c b) = (split c a ++ split c b)%list.
Proof.
  induction a as [| d a IH]; simpl.
  - rewrite Ascii.eqb_refl. reflexivity.
  - destruct (Ascii.eqb d c); rewrite IH; [reflexivity |].
    pose proof (split_not_nil c a) as Hne.
    destruct (split c a) as [| h t]; [contradiction | reflexivity].
Qed.

Lemma split_without_sep (c : ascii) (t : string) :
  contains_char c t = false -> split c t = [t].
Proof.
  induction t as [| d t IH]; simpl; intros Hc; [reflexivity |].
  apply orb_false_iff in Hc. destruct Hc as [Hd Hc].
  rewrite Hd, (IH Hc). reflexivity.
Qed.

Lemma split_pieces_without_sep (c : ascii) (s : string) :
  Forall (fun x => contains_char c x = false) (split c s).
Proof.
  induction s as [| d s IH]; simpl.
  - constructor; [reflexivity | constructor].
  - destruct (Ascii.eqb d c) eqn:Hd.
    + constructor; [reflexivity | exact IH].
    + destruct (split c s) as [| h t].
      * constructor; [simpl; rewrite Hd; reflexivity | constructor].
      * inversion IH; subst. constructor; [| assumption].
        simpl. rewrite Hd. assumption.
Qed.

Lemma Forall_removelast (A : Type) (P : A -> Prop) (l : list A) :
  Forall P l -> Forall P (removelast l).
Proof.
  induction 1 as [| x l Hx Hl IH]; simpl; [constructor |].
  destruct l; [constructor | constructor; assumption].
Qed.

(** What [normpath] computes on an absolute path. *)

Lemma normpath_components (ini : Z) (l acc : list string) :
  Forall (fun x => contains_char posixpath.sep x = false) l ->
  Forall component acc ->
  Forall component (fold_left (posixpath.normpath_step ini) l acc).
Proof.
  revert acc. induction l as [| comp l IH]; intros acc Hl Hacc; simpl.
  - exact Hacc.
  - inversion Hl as [| ? ? Hc Hl']; subst. apply IH; [exact Hl' |].
    unfold posixpath.normpath_step.
    destruct (String.eqb_spec comp "") as [| Hne]; simpl; [exact Hacc |].
    destruct (comp =? "."); [exact Hacc |].
    match goal with
    | |- Forall _ (if ?b then _ else _) => destruct b
    end.
    + apply Forall_app. split; [exact Hacc |].
      constructor; [split; assumption | constructor].
    + apply Forall_removelast. exact Hacc.
Qed.

Lemma endswith_char_app (a b : string) (c : ascii) :
  b <> "" -> endswith_char (a ++ b) c = endswith_char b c.
Proof.
  intros Hb. induction a as [| d a IH]; simpl; [reflexivity |].
  destruct (a ++ b) eqn:Hab; [| exact IH].
  destruct a; simpl in Hab; [contradiction | discriminate].
Qed.

Lemma endswith_char_contains (x : string) (c : ascii) :
  endswith_char x c = true -> contains_char c x = true.
Proof.
  induction x as [| d x IH]; simpl; [discriminate |].
  destruct x as [| e x].
  - intros ->. reflexivity.
  - intros Hx. rewrite (IH Hx). apply orb_true_r.
Qed.

Lemma concat_snoc (l : list string) (x : string) :
  exists y, String.concat "/" (l ++ [x]) = y ++ x
            /\ (l <> [] -> y = String.concat "/" l ++ "/").
Proof.
  induction l as [| a l IH].
  - exists "". split; [reflexivity | intros Hl; contradiction].
  - destruct IH as [y [Hy Hl]].
    destruct l as [| b l].
    + exists (a ++ "/"). split; [| reflexivity].
      simpl. rewrite append_assoc. reflexivity.
    + exists (a ++ "/" ++ y). split.
      * change (String.concat "/" ((a :: b :: l) ++ [x]))
          with (a ++ "/" ++ String.concat "/" ((b :: l) ++ [x])).
        rewrite Hy, !append_assoc. reflexivity.
      * intros _. rewrite (Hl ltac:(discriminate)).
        change (String.concat "/" (a :: b :: l))
          with (a ++ "/" ++ String.concat "/" (b :: l)).
        rewrite !append_assoc. reflexivity.
Qed.

Lemma normpath_absolute (p : string) :
  posixpath.isabs p = true ->
  posixpath.normpath p
  = root p ++ String.concat "/"
                (fold_left (posixpath.normpath_step (posixpath.initial_slashes p))
                   (split posixpath.sep p) []).
Proof.
  intros Ha. destruct (isabs_inv p Ha) as [q ->].
  unfold posixpath.normpath, root.
  change (String "/" q =? "") with false. cbv iota.
  assert (Hini : posixpath.initial_slashes (String "/" q) = 1%Z
                 \/ posixpath.initial_slashes (String "/" q) = 2%Z).
  { unfold posixpath.initial_slashes. cbn [startswith].
    rewrite Ascii.eqb_refl. cbn [andb].
    match goal with |- context [if ?b then 2%Z else 1%Z] => destruct b end;
      [right | left]; reflexivity. }
  destruct Hini as [-> | ->]; reflexivity.
Qed.

Lemma initial_slashes_before_sep (p s : string) :
  posixpath.isabs p = true ->
  endswith_char p posixpath.sep = false ->
  posixpath.initial_slashes (p ++ String "/" s) = posixpath.initial_slashes p.
Proof.
  intros Ha He. destruct (isabs_inv p Ha) as [q ->].
  destruct q as [| c2 q]; [discriminate He |].
  unfold posixpath.initial_slashes.
  cbn [startswith append]. rewrite !Ascii.eqb_refl. cbn [andb].
  destruct (Ascii.eqb_spec c2 "/") as [-> | _]; [| reflexivity].
  destruct q as [| c3 q]; [discriminate He |].
  cbn [startswith append andb]. reflexivity.
Qed.

Lemma file_name_inv (t : string) :
  file_name t = true ->
  (t =? "") = false /\ (t =? ".") = false /\ (t =? "..") = false
  /\ contains_char posixpath.sep t = false.
Proof.
  unfold file_name. intros H.
  repeat (apply andb_true_iff in H; destruct H as [H ?]).
  repeat match goal with
         | H : negb _ = true |- _ => apply negb_true_iff in H
         end.
  auto.
Qed.

Lemma step_file_name (ini : Z) (acc : list string) (t : string) :
  file_name t = true ->
  posixpath.normpath_step ini acc t = (acc ++ [t])%list.
Proof.
  intros Hf. destruct (file_name_inv t Hf) as [H1 [H2 [H3 _]]].
  unfold posixpath.normpath_step. rewrite H1, H2, H3. reflexivity.
Qed.

Lemma startswith_sep_contains (t : string) :
  contains_char posixpath.sep t = false -> startswith t "/" = false.
Proof.
  destruct t as [| d t]; [reflexivity |].
  cbn [contains_char startswith]. unfold posixpath.sep.
  intros H. apply orb_false_iff in H. destruct H as [-> _]. reflexivity.
Qed.

Lemma initial_slashes_root (t : string) :
  startswith t "/" = false ->
  posixpath.initial_slashes (String "/" t) = 1%Z
  /\ posixpath.initial_slashes (String "/" (String "/" t)) = 2%Z.
Proof.
  destruct t as [| b t]; [split; reflexivity |].
  cbn [startswith]. rewrite andb_true_r. intros Hb.
  unfold posixpath.initial_slashes. cbn [startswith].
  rewrite Hb, !Ascii.eqb_refl. split; reflexivity.
Qed.

Lemma normpath_join_file_name (E t : string) :
  posixpath.isabs E = true ->
  posixpath.normpath E = E ->
  file_name t = true ->
  posixpath.normpath (posixpath.join E t) = posixpath.join E t.
Proof.
  intros Ha Hn Hf.
  destruct (file_name_inv t Hf) as [Ht0 [_ [_ Hsep]]].
  pose proof (startswith_sep_contains t Hsep) as Hst.
  pose proof (normpath_absolute E Ha) as HE. rewrite Hn in HE.
  pose proof (normpath_components (posixpath.initial_slashes E)
                (split posixpath.sep E) []
                (split_pieces_without_sep posixpath.sep E)
                (Forall_nil _)) as Hcomps.
  remember (fold_left (posixpath.normpath_step (posixpath.initial_slashes E))
              (split posixpath.sep E) []) as comps eqn:Hfold.
  destruct (isabs_inv E Ha) as [q Hq].
  assert (HE0 : (E =? "") = false) by (rewrite Hq; reflexivity).
  destruct comps as [| c0 cs].
  - (* E is a root *)
    assert (Hroot : E = "/" \/ E = "//").
    { rewrite HE. unfold root.
      destruct (posixpath.initial_slashes E =? 1)%Z; [left | right];
        reflexivity. }
    unfold posixpath.join. rewrite Hst.
    assert (Hsplit : split posixpath.sep t = [t])
      by (apply split_without_sep; exact Hsep).
    destruct Hroot as [-> | ->].
    + change (posixpath.normpath (String "/" t) = String "/" t).
      rewrite (normpath_absolute (String "/" t) eq_refl).
      unfold root. rewrite (proj1 (initial_slashes_root t Hst)).
      cbn [Z.eqb Pos.eqb].
      change (split posixpath.sep (String "/" t))
        with (EmptyString :: split posixpath.sep t).
      rewrite Hsplit. cbn [fold_left].
      change (posixpath.normpath_step 1 [] "") with (@nil string).
      rewrite step_file_name by exact Hf. reflexivity.
    + change (posixpath.normpath (String "/" (String "/" t))
              = String "/" (String "/" t)).
      rewrite (normpath_absolute (String "/" (String "/" t)) eq_refl).
      unfold root. rewrite (proj2 (initial_slashes_root t Hst)).
      cbn [Z.eqb Pos.eqb].
      change (split posixpath.sep (String "/" (String "/" t)))
        with (EmptyString :: EmptyString :: split posixpath.sep t).
      rewrite Hsplit. cbn [fold_left].
      change (posixpath.normpath_step 2 [] "") with (@nil string).
      rewrite step_file_name by exact Hf. reflexivity.
  - (* E ends in a component *)
    assert (Hne : c0 :: cs <> []) by discriminate.
    destruct (exists_last Hne) as [l [x Hlx]].
    rewrite Hlx in *. clear Hne.
    assert (Hx : component x).
    { apply Forall_app in Hcomps. destruct Hcomps as [_ Hx].
      inversion Hx; assumption. }
    destruct Hx as [Hx0 Hxsep].
    destruct (concat_snoc l x) as [y [Hy _]].
    assert (Hend : endswith_char E posixpath.sep = false).
    { rewrite HE, Hy, <- append_assoc, endswith_char_app by exact Hx0.
      destruct (endswith_char x posixpath.sep) eqn:Hex; [| reflexivity].
      apply endswith_char_contains in Hex. congruence. }
    assert (Hjoin : posixpath.join E t = E ++ String "/" t).
    { unfold posixpath.join. rewrite Hst, HE0, Hend. reflexivity. }
    rewrite Hjoin.
    assert (Ha' : posixpath.isabs (E ++ String "/" t) = true)
      by (rewrite Hq; reflexivity).
    rewrite (normpath_absolute _ Ha').
    unfold root. rewrite (initial_slashes_before_sep E t Ha Hend).
    change (String "/" t) with (String posixpath.sep t) at 1.
    rewrite split_at_sep, (split_without_sep _ t Hsep), fold_left_app.
    rewrite <- Hfold. cbn [fold_left].
    rewrite step_file_name by exact Hf.
    destruct (concat_snoc (l ++ [x]) t) as [z [Hz Hz']].
    rewrite Hz, (Hz' ltac:(intros Hnil; destruct l; discriminate Hnil)).
    fold (root E).
    rewrite <- !append_assoc, <- HE. rewrite append_assoc. reflexivity.
Qed.

(** The working directory is its own absolute form. *)

Lemma normpath_trailing_sep (p : string) :
  posixpath.isabs p = true ->
  endswith_char p posixpath.sep = false ->
  posixpath.normpath (p ++ "/") = posixpath.normpath p.
Proof.
  intros Ha He.
  assert (Ha' : posixpath.isabs (p ++ "/") = true)
    by (destruct (isabs_inv p Ha) as [q ->]; reflexivity).
  rewrite (normpath_absolute _ Ha'), (normpath_absolute _ Ha).
  unfold root. rewrite (initial_slashes_before_sep p "" Ha He).
  change "/" with (String posixpath.sep "") at 2.
  rewrite split_at_sep, fold_left_app. reflexivity.
Qed.

Lemma abspath_of_empty (cwd : string) :
  posixpath.isabs cwd = true ->
  posixpath.normpath cwd = cwd ->
  posixpath.abspath cwd "" = cwd.
Proof.
  intros Ha Hn. unfold posixpath.abspath, posixpath.join.
  cbn [posixpath.isabs startswith].
  destruct (isabs_inv cwd Ha) as [q Hq].
  replace (cwd =? "") with false by (subst cwd; reflexivity).
  cbn [orb].
  destruct (endswith_char cwd posixpath.sep) eqn:He.
  - rewrite append_empty_r. exact Hn.
  - change ("/" ++ "") with "/".
    rewrite normpath_trailing_sep by assumption. exact Hn.
Qed.

(** [__path__] case by case. *)

Section PathProperties.

Variable cwd : string.
Variable glob_escape : string -> string.

Lemma path_absolute (self : Setting.receiver) (text : string)
  (origin : option string) (esc : bool) :
  Setting.receiver_str self = Ok text ->
  posixpath.isabs (strip text) = true ->
  Setting.__path__ cwd glob_escape self origin esc = Ok (strip text).
Proof.
  intros Hs Ha. unfold Setting.__path__. rewrite Hs. simpl.
  rewrite Ha. reflexivity.
Qed.

Lemma path_relative (self : Setting.receiver) (text : string)
  (origin : option string) (esc : bool) :
  Setting.receiver_str self = Ok text ->
  posixpath.isabs (strip text) = false ->
  Setting.__path__ cwd glob_escape self origin esc
  = match effective_origin (Setting.receiver_origin self) origin with
    | Some o => Ok (resolve_relative cwd glob_escape esc o text)
    | None => Raise Setting.MissingOriginError
    end.
Proof.
  intros Hs Ha. unfold Setting.__path__. rewrite Hs. simpl.
  rewrite Ha. unfold effective_origin.
  destruct (Setting.receiver_origin self) as [own |].
  - destruct (own =? ""); simpl; destruct origin; reflexivity.
  - destruct origin; reflexivity.
Qed.

Lemma path_of_element (elem origin : string) (esc : bool) :
  Setting.__path__ cwd glob_escape (Setting.OfStr elem) (Some origin) esc
  = Ok (resolve_element cwd glob_escape esc origin elem).
Proof.
  unfold resolve_element.
  destruct (posixpath.isabs (strip elem)) eqn:Ha.
  - apply path_absolute; [reflexivity | exact Ha].
  - rewrite path_relative with (text := elem);
      [reflexivity | reflexivity | exact Ha].
Qed.

Lemma path_list_elements (s : Setting.t) :
  Setting.__path_list__ cwd glob_escape s
  = (elems <- Setting.__iter__ s true ;;
     Ok (map (resolve_element cwd glob_escape false (Setting.origin s)) elems)).
Proof.
  unfold Setting.__path_list__.
  destruct (Setting.__iter__ s true) as [elems | e]; simpl; [| reflexivity].
  apply comprehension_total. intros x _. apply path_of_element.
Qed.

Lemma glob_list_elements (s : Setting.t) :
  Setting.__glob_list__ cwd glob_escape s
  = (elems <- Setting.__iter__ s true ;;
     Ok (map (resolve_element cwd glob_escape true (Setting.origin s)) elems)).
Proof.
  unfold Setting.__glob_list__, Setting.__glob__.
  destruct (Setting.__iter__ s true) as [elems | e]; simpl; [| reflexivity].
  apply comprehension_total. intros x _. apply path_of_element.
Qed.

End PathProperties.

(** C3: for a value whose trimmed text is not absolute, [__path__]
    resolves against the value's own origin when that is non-empty,
    against the caller's origin otherwise, and raises
    [MissingOriginError] when the own origin is empty or absent and the
    caller passes none. *)
Theorem effective_origin_is_own_then_explicit :
  forall cwd glob_escape self text explicitOrigin escapeOrigin,
    Setting.receiver_str self = Ok text ->
    posixpath.isabs (strip text) = false ->
    (forall own,
        Setting.receiver_origin self = Some own -> own <> "" ->
        Setting.__path__ cwd glob_escape self explicitOrigin escapeOrigin
        = Ok (resolve_relative cwd glob_escape escapeOrigin own text))
    /\ (forall o,
          Setting.receiver_origin self = None
          \/ Setting.receiver_origin self = Some "" ->
          explicitOrigin = Some o ->
          Setting.__path__ cwd glob_escape self explicitOrigin escapeOrigin
          = Ok (resolve_relative cwd glob_escape escapeOrigin o text))
    /\ (Setting.receiver_origin self = None
        \/ Setting.receiver_origin self = Some "" ->
        explicitOrigin = None ->
        Setting.__path__ cwd glob_escape self explicitOrigin escapeOrigin
        = Raise Setting.MissingOriginError)
    /\ Setting.__path__ cwd glob_escape self explicitOrigin escapeOrigin
       = match effective_origin (Setting.receiver_origin self)
                 explicitOrigin with
         | Some o => Ok (resolve_relative cwd glob_escape escapeOrigin o text)
         | None => Raise Setting.MissingOriginError
         end.
Proof.
  intros cwd ge self text explicit esc Hs Ha.
  pose proof (path_relative cwd ge self text explicit esc Hs Ha) as H.
  repeat split.
  - intros own Ho Hne. rewrite H, Ho. simpl.
    apply String.eqb_neq in Hne. rewrite Hne. reflexivity.
  - intros o [Ho | Ho] ->; rewrite H, Ho; reflexivity.
  - intros [Ho | Ho] ->; rewrite H, Ho; reflexivity.
  - exact H.
Qed.

Lemma effective_origin_is_own_then_explicit_witness :
  Setting.__path__ "/w" (fun d => d)
    (Setting.OfSetting
       (Setting.mk (StringConverter.new "config.ini") false false "file"
          (Setting.OriginStr "/a/b/origin.cfg") 1))
    (Some "/c/d.cfg") false
  = Ok "/a/b/config.ini"
  /\ Setting.__path__ "/w" (fun d => d) (Setting.OfStr "config.ini")
       (Some "/c/d.cfg") false
     = Ok "/c/config.ini"
  /\ Setting.__path__ "/w" (fun d => d) (Setting.OfStr "config.ini") None
       false
     = Raise Setting.MissingOriginError.
Proof.
  split; [| split].
  - destruct (effective_origin_is_own_then_explicit "/w" (fun d => d)
                (Setting.OfSetting
                   (Setting.mk (StringConverter.new "config.ini") false false
                      "file" (Setting.OriginStr "/a/b/origin.cfg") 1))
                "config.ini" (Some "/c/d.cfg") false eq_refl eq_refl)
      as [H _].
    apply (H "/a/b/origin.cfg"); [reflexivity | discriminate].
  - destruct (effective_origin_is_own_then_explicit "/w" (fun d => d)
                (Setting.OfStr "config.ini") "config.ini" (Some "/c/d.cfg")
                false eq_refl eq_refl) as [_ [H _]].
    apply (H "/c/d.cfg"); [left |]; reflexivity.
  - destruct (effective_origin_is_own_then_explicit "/w" (fun d => d)
                (Setting.OfStr "config.ini") "config.ini" None false
                eq_refl eq_refl) as [_ [_ [H _]]].
    apply H; [left |]; reflexivity.
Defined.

(** C4, as the code has it: for every value whose text is an absolute
    path and every origin, also none, [__path__] does not raise and
    returns the trimmed text, that is the text without its trailing
    whitespace, and so the text itself when it has none. *)
Theorem absolute_text_is_returned_trimmed :
  forall cwd glob_escape self text origin escapeOrigin,
    Setting.receiver_str self = Ok text ->
    posixpath.isabs text = true ->
    Setting.__path__ cwd glob_escape self origin escapeOrigin
    = Ok (strip text)
    /\ strip text = rstrip text
    /\ (rstrip text = text ->
        Setting.__path__ cwd glob_escape self origin escapeOrigin = Ok text).
Proof.
  intros cwd ge self text origin esc Hs Ha.
  destruct (strip_absolute text Ha) as [Hr Ha'].
  pose proof (path_absolute cwd ge self text origin esc Hs Ha') as H.
  repeat split; [exact H | exact Hr |].
  intros Ht. rewrite H, Hr, Ht. reflexivity.
Qed.

Lemma absolute_text_is_returned_trimmed_witness :
  Setting.__path__ "/w" (fun d => d) (Setting.OfStr "/etc/../coafile") None
    false
  = Ok "/etc/../coafile".
Proof.
  destruct (absolute_text_is_returned_trimmed "/w" (fun d => d)
              (Setting.OfStr "/etc/../coafile") "/etc/../coafile" None false
              eq_refl eq_refl) as [_ [_ H]].
  apply H. reflexivity.
Defined.

(** [__path__] is not the identity on absolute texts: ["/a "], with a
    trailing blank, comes back as ["/a"], from a plain string and from a
    setting that keeps its whitespace. *)
Lemma absolute_text_unchanged_counterexample :
  posixpath.isabs "/a " = true
  /\ Setting.__path__ "/w" (fun d => d) (Setting.OfStr "/a ") None false
     = Ok "/a"
  /\ (s <- Setting.__init__ "file" "/a " (Setting.OriginStr "") false
             [","%char; ";"%char] false true false ;;
      text <- Setting.__str__ s ;;
      p <- path "/w" (fun d => d) (Setting.OfSetting s) None false ;;
      Ok (text, p))
     = Ok ("/a ", "/a")
  /\ ~ (forall cwd glob_escape self text origin escapeOrigin,
           Setting.receiver_str self = Ok text ->
           posixpath.isabs text = true ->
           Setting.__path__ cwd glob_escape self origin escapeOrigin
           = Ok text).
Proof.
  repeat split.
  intros H.
  specialize (H "/w" (fun d => d) (Setting.OfStr "/a ") "/a " None false
                eq_refl eq_refl).
  discriminate H.
Qed.

(** C1: with [glob_escape_origin=True] and a text that is not absolute,
    [__path__] takes the containing directory of the effective origin as
    an absolute path, applies [glob_escape] to that directory string and
    to nothing else, then joins it with the trimmed text and normalizes;
    [__glob__] is that call.  A file name, whatever metacharacters it
    holds, ends the result as it is written when the escaped directory is
    an absolute normalized path.  For ["x*.py"] and the origin
    ["/a/[b]/origin.cfg"] the escaped string is ["/a/[b]"], and with the
    backslash dialect the result is ["/a/\[b\]/x*.py"]. *)
Theorem glob_escape_covers_the_origin_directory_only :
  (forall cwd glob_escape self text explicitOrigin o,
      Setting.receiver_str self = Ok text ->
      posixpath.isabs (strip text) = false ->
      effective_origin (Setting.receiver_origin self) explicitOrigin
      = Some o ->
      Setting.__path__ cwd glob_escape self explicitOrigin true
      = Ok (join_and_normalize (glob_escape (containing_directory cwd o))
              (strip text))
      /\ Setting.__glob__ cwd glob_escape self explicitOrigin
         = Setting.__path__ cwd glob_escape self explicitOrigin true)
  /\ (forall cwd glob_escape self text explicitOrigin o,
         Setting.receiver_str self = Ok text ->
         file_name (strip text) = true ->
         effective_origin (Setting.receiver_origin self) explicitOrigin
         = Some o ->
         posixpath.isabs (glob_escape (containing_directory cwd o)) = true ->
         posixpath.normpath (glob_escape (containing_directory cwd o))
         = glob_escape (containing_directory cwd o) ->
         Setting.__glob__ cwd glob_escape self explicitOrigin
         = Ok (glob_escape (containing_directory cwd o)
               ++ (if endswith_char (glob_escape (containing_directory cwd o))
                        posixpath.sep
                   then "" else "/")
               ++ strip text))
  /\ (forall cwd glob_escape,
         Setting.__glob__ cwd glob_escape (Setting.OfStr "x*.py")
           (Some "/a/[b]/origin.cfg")
         = Ok (join_and_normalize (glob_escape "/a/[b]") "x*.py"))
  /\ (forall cwd,
         Setting.__glob__ cwd Globbing.glob_escape (Setting.OfStr "x*.py")
           (Some "/a/[b]/origin.cfg")
         = Ok "/a/\[b\]/x*.py")
  /\ (forall cwd,
         (s <- Setting.new "files" "x*.py"
                 (Setting.OriginStr "/a/[b]/origin.cfg") ;;
          glob cwd Globbing.glob_escape (Setting.OfSetting s) None)
         = Ok "/a/\[b\]/x*.py").
Proof.
  split; [| split; [| split; [| split]]].
  - intros cwd ge self text explicit o Hs Ha Ho.
    split; [| reflexivity].
    rewrite (path_relative cwd ge self text explicit true Hs Ha), Ho.
    reflexivity.
  - intros cwd ge self text explicit o Hs Hf Ho Ha Hn.
    destruct (file_name_inv _ Hf) as [Ht0 [_ [_ Hsep]]].
    pose proof (startswith_sep_contains _ Hsep) as Hst.
    unfold Setting.__glob__.
    rewrite (path_relative cwd ge self text explicit true Hs Hst), Ho.
    unfold resolve_relative, escape_directory, join_and_normalize.
    rewrite (normpath_join_file_name _ _ Ha Hn Hf).
    unfold posixpath.join. rewrite Hst.
    destruct (isabs_inv _ Ha) as [q Hq]. rewrite Hq.
    change (String "/" q =? "") with false. cbn [orb].
    destruct (endswith_char (String "/" q) posixpath.sep); reflexivity.
  - intros cwd ge. reflexivity.
  - intros cwd. reflexivity.
  - intros cwd. reflexivity.
Qed.

Lemma glob_escape_covers_the_origin_directory_only_witness :
  Setting.__path__ "/w" Globbing.glob_escape (Setting.OfStr " sub/*.c ")
    (Some "dir?/origin.cfg") true
  = Ok "/w/dir\?/sub/*.c"
  /\ Setting.__glob__ "/w" Globbing.glob_escape (Setting.OfStr "[ab]?.py")
       (Some "/srv/*/origin.cfg")
     = Ok "/srv/\*/[ab]?.py".
Proof.
  destruct glob_escape_covers_the_origin_directory_only as [H1 [H2 _]].
  split.
  - destruct (H1 "/w" Globbing.glob_escape (Setting.OfStr " sub/*.c ")
                " sub/*.c " (Some "dir?/origin.cfg") "dir?/origin.cfg"
                eq_refl eq_refl eq_refl) as [H _].
    exact H.
  - exact (H2 "/w" Globbing.glob_escape (Setting.OfStr "[ab]?.py")
             "[ab]?.py" (Some "/srv/*/origin.cfg") "/srv/*/origin.cfg"
             eq_refl eq_refl eq_refl eq_refl eq_refl).
Defined.

(** C5: [__path_list__] iterates the setting and resolves every element
    against the setting's own origin, in iteration order; for the text
    ["a.py, b.py"] with origin ["/x/y/origin.cfg"] it returns
    ["/x/y/a.py"] and ["/x/y/b.py"]. *)
Theorem path_list_resolves_against_own_origin :
  forall cwd glob_escape,
    (forall s,
        Setting.__path_list__ cwd glob_escape s
        = (elems <- Setting.__iter__ s true ;;
           Ok (map (resolve_element cwd glob_escape false (Setting.origin s))
                 elems)))
    /\ (forall s elem,
           Setting.__path__ cwd glob_escape (Setting.OfStr elem)
             (Some (Setting.origin s)) false
           = Ok (resolve_element cwd glob_escape false (Setting.origin s)
                   elem))
    /\ (s <- Setting.new "files" "a.py, b.py"
               (Setting.OriginStr "/x/y/origin.cfg") ;;
        path_list cwd glob_escape s)
       = Ok ["/x/y/a.py"; "/x/y/b.py"].
Proof.
  intros cwd ge. split; [| split].
  - intros s. apply path_list_elements.
  - intros s elem. apply path_of_element.
  - reflexivity.
Qed.

(** C10: a setting that is not append-pending and whose origin is the
    empty string never makes [__path_list__] or [__glob_list__] raise
    [MissingOriginError]: every element is resolved with the origin [''],
    whose containing directory in absolute form is the working directory
    (escaped, for the glob list). *)
Theorem empty_origin_resolves_against_working_directory :
  forall cwd glob_escape s,
    Setting.to_append s = false ->
    Setting.origin s = "" ->
    Setting.__path_list__ cwd glob_escape s
    = Ok (map (resolve_element cwd glob_escape false "")
            (StringConverter.__iter__ (Setting.base s) true))
    /\ Setting.__glob_list__ cwd glob_escape s
       = Ok (map (resolve_element cwd glob_escape true "")
               (StringConverter.__iter__ (Setting.base s) true))
    /\ (forall text escapeOrigin,
           Setting.__str__ s = Ok text ->
           posixpath.isabs (strip text) = false ->
           Setting.__path__ cwd glob_escape (Setting.OfSetting s) None
             escapeOrigin
           = Raise Setting.MissingOriginError)
    /\ (posixpath.isabs cwd = true ->
        posixpath.normpath cwd = cwd ->
        containing_directory cwd "" = cwd
        /\ forall elem,
             posixpath.isabs (strip elem) = false ->
             resolve_element cwd glob_escape false "" elem
             = join_and_normalize cwd (strip elem)
             /\ resolve_element cwd glob_escape true "" elem
                = join_and_normalize (glob_escape cwd) (strip elem)).
Proof.
  intros cwd ge s Hta Ho.
  split; [| split; [| split]].
  - rewrite path_list_elements. unfold Setting.__iter__.
    rewrite Hta, Ho. reflexivity.
  - rewrite glob_list_elements. unfold Setting.__iter__.
    rewrite Hta, Ho. reflexivity.
  - intros text esc Hs Ha.
    rewrite (path_relative cwd ge (Setting.OfSetting s) text None esc Hs Ha).
    simpl. rewrite Ho. reflexivity.
  - intros Ha Hn.
    assert (Hd : containing_directory cwd "" = cwd)
      by (apply abspath_of_empty; assumption).
    split; [exact Hd |].
    intros elem He. unfold resolve_element, resolve_relative.
    rewrite He, Hd. split; reflexivity.
Qed.

Lemma empty_origin_resolves_against_working_directory_witness :
  Setting.__path_list__ "/w/d" Globbing.glob_escape
    (Setting.mk (StringConverter.new "a.py, /etc/b.py") false false "files"
       (Setting.OriginStr "") 1)
  = Ok ["/w/d/a.py"; "/etc/b.py"]
  /\ containing_directory "/w/d" "" = "/w/d".
Proof.
  destruct (empty_origin_resolves_against_working_directory "/w/d"
              Globbing.glob_escape
              (Setting.mk (StringConverter.new "a.py, /etc/b.py") false false
                 "files" (Setting.OriginStr "") 1)
              eq_refl eq_refl) as [H1 [_ [_ H2]]].
  split; [exact H1 |].
  destruct (H2 eq_refl eq_refl) as [Hd _]. exact Hd.
Defined.

(** *** Typed lists (C6) *)

(** C6: on a setting that is not append-pending, [typed_list f] is the
    comprehension of [f] over the iterated elements, in order, so the list
    of the converted elements when [f] converts them all; on an
    append-pending setting it raises the [IncompleteValueError] that the
    iteration raises.  [int_list] turns ["1, 2,3"] into [1, 2, 3]. *)
Theorem typed_list_converts_each_element :
  (forall (A : Type) (f : StringConverter.t -> result A) (s : Setting.t),
      (Setting.to_append s = false ->
       typed_list f s
       = comprehension (fun elem => f (StringConverter.new elem))
           (StringConverter.__iter__ (Setting.base s) true)
       /\ forall g : string -> A,
            (forall elem,
                In elem (StringConverter.__iter__ (Setting.base s) true) ->
                f (StringConverter.new elem) = Ok (g elem)) ->
            typed_list f s
            = Ok (map g (StringConverter.__iter__ (Setting.base s) true)))
      /\ (Setting.to_append s = true ->
          typed_list f s = Raise Setting.IncompleteValueError_iteration
          /\ Setting.__iter__ s true
             = Raise Setting.IncompleteValueError_iteration))
  /\ (s <- Setting.__init__ "numbers" "1, 2,3" (Setting.OriginStr "") true
             [","%char; ";"%char] false true false ;;
      int_list s)
     = Ok [1; 2; 3]%Z.
Proof.
  split; [| reflexivity].
  intros A f s. unfold typed_list, Setting.__iter__. split.
  - intros ->. simpl. split; [reflexivity |].
    intros g Hg. apply comprehension_total. exact Hg.
  - intros ->. split; reflexivity.
Qed.

Lemma typed_list_converts_each_element_witness :
  typed_list str_
    (Setting.mk (StringConverter.new "a; b c") false false "names"
       (Setting.OriginStr "") 1)
  = Ok ["a"; "b c"]
  /\ typed_list int_
       (Setting.mk (StringConverter.new "1, 2") true false "numbers"
          (Setting.OriginStr "") 1)
     = Raise Setting.IncompleteValueError_iteration.
Proof.
  destruct typed_list_converts_each_element as [H _].
  split.
  - destruct (H string str_
                (Setting.mk (StringConverter.new "a; b c") false false
                   "names" (Setting.OriginStr "") 1)) as [Hok _].
    destruct (Hok eq_refl) as [_ Hg].
    apply (Hg (fun elem => StringConverter.__str__ (StringConverter.new elem))).
    intros elem _. reflexivity.
  - destruct (H Z int_
                (Setting.mk (StringConverter.new "1, 2") true false
                   "numbers" (Setting.OriginStr "") 1)) as [_ Hap].
    destruct (Hap eq_refl) as [Hr _]. exact Hr.
Defined.

(** *** Typed dicts (C7) *)

Section DictModel.

Context {K V : Type} `{EqDec K}.

Lemma setitem_fresh (d : dict K V) (k : K) (v : V) :
  ~ In k (map fst d) -> setitem d k v = (d ++ [(k, v)])%list.
Proof.
  induction d as [| [k' v'] r IH]; simpl; intros Hn; [reflexivity |].
  destruct (eq_dec k' k) as [-> | _].
  - exfalso. apply Hn. left. reflexivity.
  - rewrite IH; [reflexivity |]. intros Hin. apply Hn. right. exact Hin.
Qed.

Lemma NoDup_app_head (A : Type) (l1 l2 : list A) (x : A) :
  NoDup (l1 ++ x :: l2) -> ~ In x l1 /\ NoDup ((l1 ++ [x]) ++ l2).
Proof.
  intros Hnd. split.
  - apply NoDup_remove_2 in Hnd. intros Hin. apply Hnd.
    apply in_or_app. left. exact Hin.
  - rewrite <- app_assoc. exact Hnd.
Qed.

Lemma dict_of_distinct (items acc : list (K * V)) :
  NoDup (map fst (acc ++ items)) ->
  fold_left (fun d kv => setitem d (fst kv) (snd kv)) items acc
  = (acc ++ items)%list.
Proof.
  revert acc. induction items as [| [k v] r IH]; intros acc Hnd; simpl.
  - rewrite app_nil_r. reflexivity.
  - rewrite map_app in Hnd. simpl in Hnd.
    apply NoDup_app_head in Hnd. destruct Hnd as [Hfresh Hnd].
    rewrite setitem_fresh by exact Hfresh.
    rewrite IH.
    + rewrite <- app_assoc. reflexivity.
    + rewrite !map_app. simpl. exact Hnd.
Qed.

Lemma dict_of_mapping (items : list (K * V)) :
  NoDup (map fst items) -> dict_of items = items.
Proof.
  intros Hnd. unfold dict_of. apply dict_of_distinct. exact Hnd.
Qed.

Lemma get_of_distinct (d : dict K V) (k : K) (v : V) :
  NoDup (map fst d) -> In (k, v) d -> get d k = Some v.
Proof.
  induction d as [| [k' v'] r IH]; simpl; intros Hnd Hin; [contradiction |].
  inversion Hnd as [| ? ? Hfresh Hnd']; subst.
  destruct Hin as [Heq | Hin].
  - inversion Heq; subst. destruct (eq_dec k k); [reflexivity | contradiction].
  - destruct (eq_dec k' k) as [-> | _]; [| apply IH; assumption].
    exfalso. apply Hfresh. change k with (fst (k, v)).
    apply in_map. exact Hin.
Qed.

End DictModel.

Section DictProperties.

Context {K V : Type} `{EqDec K}.
Variable key_type : StringConverter.t -> result K.
Variable value_type : StringConverter.t -> result V.
Variable default : V.

Lemma ordered_dict_is_comprehension (items : list (string * string))
  (d : dict K V) :
  OrderedDict
    (map (fun kv =>
            k <- key_type (StringConverter.new (fst kv)) ;;
            v <- value_or_default value_type default (snd kv) ;;
            Ok (k, v))
         items) d
  = dict_comprehension
      (fun kv => key_type (StringConverter.new (fst kv)))
      (fun kv => value_or_default value_type default (snd kv))
      items d.
Proof.
  revert d. induction items as [| kv r IH]; intros d; simpl.
  - reflexivity.
  - destruct (key_type (StringConverter.new (fst kv))) as [k | e]; simpl;
      [| reflexivity].
    destruct (value_or_default value_type default (snd kv)) as [v | e];
      simpl; [apply IH | reflexivity].
Qed.

Lemma converts_to_value (entry : string * string) (out : K * V) :
  converts_to key_type value_type default entry out ->
  value_or_default value_type default (snd entry) = Ok (snd out).
Proof.
  intros [_ [Hempty Hvalue]]. unfold value_or_default.
  destruct (String.eqb_spec (snd entry) "") as [He | Hne]; simpl.
  - rewrite (Hempty He). reflexivity.
  - apply Hvalue. exact Hne.
Qed.

Lemma comprehension_of_converted (items : list (string * string))
  (l d : list (K * V)) :
  Forall2 (converts_to key_type value_type default) items l ->
  dict_comprehension
    (fun kv => key_type (StringConverter.new (fst kv)))
    (fun kv => value_or_default value_type default (snd kv))
    items d
  = Ok (fold_left (fun d kv => setitem d (fst kv) (snd kv)) l d).
Proof.
  intros HF. revert d.
  induction HF as [| entry out items l Hc _ IH]; intros d; simpl.
  - reflexivity.
  - rewrite (proj1 Hc). simpl.
    rewrite (converts_to_value entry out Hc). simpl.
    apply IH.
Qed.

Lemma converted_keys_distinct (setting : list (string * string))
  (l : list (K * V)) :
  Forall2 (converts_to key_type value_type default) setting l ->
  NoDup (map fst l) ->
  NoDup (map fst setting).
Proof.
  induction 1 as [| entry out setting l Hc HF IH]; simpl; intros Hnd.
  - constructor.
  - inversion Hnd as [| ? ? Hnotin Hnd']; subst.
    constructor; [| apply IH; exact Hnd'].
    intros Hin. apply Hnotin. clear IH Hnd Hnd' Hnotin.
    induction HF as [| entry' out' setting l Hc' _ IH]; simpl in *.
    + contradiction.
    + destruct Hin as [Heq | Hin]; [left | right; apply IH; exact Hin].
      destruct Hc as [Hk _], Hc' as [Hk' _].
      rewrite Heq, Hk in Hk'. inversion Hk'. reflexivity.
Qed.

Lemma typed_dict_of_converted (setting : list (string * string))
  (l : list (K * V)) :
  Forall2 (converts_to key_type value_type default) (dict_of setting) l ->
  typed_dict key_type value_type default setting = Ok (dict_of l).
Proof.
  intros HF. unfold typed_dict.
  exact (comprehension_of_converted (dict_of setting) l [] HF).
Qed.

Lemma typed_dict_of_distinct (setting : list (string * string))
  (l : list (K * V)) :
  Forall2 (converts_to key_type value_type default) setting l ->
  NoDup (map fst l) ->
  typed_dict key_type value_type default setting = Ok l.
Proof.
  intros HF Hnd.
  rewrite (typed_dict_of_converted setting l).
  - rewrite (dict_of_mapping l Hnd). reflexivity.
  - rewrite dict_of_mapping
      by (eapply converted_keys_distinct; eassumption).
    exact HF.
Qed.

End DictProperties.

(** C7: [typed_dict] converts every key with the key converter and every
    value with the value converter, except that an entry whose text is
    empty gets the default; the value converter does not see the empty
    text.  The result is the dict of the converted entries, which is the
    list of them when their keys are distinct.  [typed_ordered_dict]
    returns the same entries, in the order of the source mapping.  With
    [str], [int] and the default 0 the mapping [{"a": "1", "b": ""}]
    becomes [{"a": 1, "b": 0}]. *)
Theorem typed_dicts_convert_entries_with_default :
  (forall (K V : Type) (E : EqDec K)
          (key_type : StringConverter.t -> result K)
          (value_type : StringConverter.t -> result V) (default : V)
          (setting : list (string * string)),
      typed_ordered_dict key_type value_type default setting
      = typed_dict key_type value_type default setting
      /\ (forall l,
            Forall2 (converts_to key_type value_type default)
              (dict_of setting) l ->
            typed_dict key_type value_type default setting = Ok (dict_of l))
      /\ (forall l,
            Forall2 (converts_to key_type value_type default) setting l ->
            NoDup (map fst l) ->
            typed_dict key_type value_type default setting = Ok l
            /\ typed_ordered_dict key_type value_type default setting = Ok l
            /\ forall k v, In (k, v) l -> get l k = Some v))
  /\ typed_dict str_ int_ 0%Z [("a", "1"); ("b", "")]
     = Ok [("a", 1%Z); ("b", 0%Z)]
  /\ typed_ordered_dict str_ int_ 0%Z [("b", ""); ("a", "1")]
     = Ok [("b", 0%Z); ("a", 1%Z)].
Proof.
  split; [| split; reflexivity].
  intros K V E key_type value_type default setting.
  assert (Hsame : typed_ordered_dict key_type value_type default setting
                  = typed_dict key_type value_type default setting)
    by apply ordered_dict_is_comprehension.
  split; [exact Hsame | split].
  - intros l HF. apply typed_dict_of_converted. exact HF.
  - intros l HF Hnd. rewrite Hsame.
    split; [| split]; try (apply typed_dict_of_distinct; assumption).
    intros k v Hin. apply get_of_distinct; assumption.
Qed.

Lemma typed_dicts_convert_entries_with_default_witness :
  typed_ordered_dict int_ str_ "none" [("2", "two"); ("1", ""); ("3", "x\y")]
  = Ok [(2%Z, "two"); (1%Z, "none"); (3%Z, "xy")].
Proof.
  destruct typed_dicts_convert_entries_with_default as [H _].
  destruct (H Z string _ int_ str_ "none"
              [("2", "two"); ("1", ""); ("3", "x\y")]) as [_ [_ Hl]].
  apply (Hl [(2%Z, "two"); (1%Z, "none"); (3%Z, "xy")]).
  - repeat constructor; simpl; try reflexivity; try discriminate;
      intros Hne; exfalso; apply Hne; reflexivity.
  - repeat constructor; simpl; intuition discriminate.
Defined.

(* ================================================================== *)
(** ** Further properties of the path functions *)

(** *** [normpath] on absolute paths *)

Lemma last_is_member (A : Type) (l : list A) (d : A) :
  l <> [] -> In (last l d) l.
Proof.
  intros Hne. destruct (exists_last Hne) as [l' [a ->]].
  rewrite last_last. apply in_or_app. right. left. reflexivity.
Qed.

Lemma file_name_intro (t : string) :
  (t =? "") = false -> (t =? ".") = false -> (t =? "..") = false ->
  contains_char posixpath.sep t = false -> file_name t = true.
Proof.
  intros H1 H2 H3 H4. unfold file_name. rewrite H1, H2, H3, H4. reflexivity.
Qed.

Lemma normpath_absolute_components (ini : Z) (l acc : list string) :
  (ini =? 0)%Z = false ->
  Forall (fun x => contains_char posixpath.sep x = false) l ->
  Forall (fun x => file_name x = true) acc ->
  Forall (fun x => file_name x = true)
    (fold_left (posixpath.normpath_step ini) l acc).
Proof.
  intros Hini. revert acc.
  induction l as [| comp l IH]; intros acc Hl Hacc; simpl; [exact Hacc |].
  inversion Hl as [| ? ? Hc Hl']; subst. apply IH; [exact Hl' |].
  unfold posixpath.normpath_step. rewrite Hini.
  destruct (comp =? "") eqn:H1; [exact Hacc |].
  destruct (comp =? ".") eqn:H2; [exact Hacc |].
  destruct (comp =? "..") eqn:H3; cbn [orb negb andb].
  - destruct acc as [| a acc']; [constructor |].
    assert (Hlast : (last (a :: acc') "" =? "..") = false).
    { pose proof (last_is_member _ (a :: acc') "" ltac:(discriminate)) as Hin.
      rewrite Forall_forall in Hacc. apply Hacc in Hin.
      apply file_name_inv in Hin. tauto. }
    rewrite Hlast. apply Forall_removelast. exact Hacc.
  - apply Forall_app. split; [exact Hacc |].
    constructor; [| constructor].
    apply file_name_intro; assumption.
Qed.

Lemma fold_file_names (ini : Z) (l acc : list string) :
  Forall (fun x => file_name x = true) l ->
  fold_left (posixpath.normpath_step ini) l acc = (acc ++ l)%list.
Proof.
  revert acc. induction l as [| x l IH]; intros acc Hl; simpl.
  - rewrite app_nil_r. reflexivity.
  - inversion Hl as [| ? ? Hx Hl']; subst.
    rewrite step_file_name by exact Hx. rewrite IH by exact Hl'.
    rewrite <- app_assoc. reflexivity.
Qed.

Lemma concat_head_not_sep (x : string) (l : list string) :
  file_name x = true ->
  startswith (String.concat "/" (x :: l)) "/" = false.
Proof.
  intros Hx. destruct (file_name_inv x Hx) as [H0 [_ [_ Hsep]]].
  destruct x as [| c x]; [discriminate H0 |].
  cbn [contains_char] in Hsep. unfold posixpath.sep in Hsep.
  apply orb_false_iff in Hsep. destruct Hsep as [Hc _].
  destruct l; cbn [String.concat append startswith]; rewrite Hc; reflexivity.
Qed.

Lemma split_concat (l : list string) :
  l <> [] ->
  Forall (fun x => file_name x = true) l ->
  split posixpath.sep (String.concat "/" l) = l.
Proof.
  induction l as [| x l IH]; intros Hne Hl; [contradiction |].
  inversion Hl as [| ? ? Hx Hl']; subst.
  destruct (file_name_inv x Hx) as [_ [_ [_ Hsep]]].
  destruct l as [| y l].
  - apply split_without_sep. exact Hsep.
  - change (String.concat "/" (x :: y :: l))
      with (x ++ String posixpath.sep (String.concat "/" (y :: l))).
    rewrite split_at_sep, (split_without_sep _ x Hsep).
    rewrite IH by (discriminate || exact Hl'). reflexivity.
Qed.

Lemma initial_slashes_nonzero (p : string) :
  posixpath.isabs p = true -> (posixpath.initial_slashes p =? 0)%Z = false.
Proof.
  intros Ha. destruct (isabs_inv p Ha) as [q ->].
  unfold posixpath.initial_slashes. cbn [startswith].
  rewrite Ascii.eqb_refl. cbn [andb].
  match goal with |- context [if ?b then 2%Z else 1%Z] => destruct b end;
    reflexivity.
Qed.

Lemma normpath_of_root_and_names (l : list string) :
  Forall (fun x => file_name x = true) l ->
  posixpath.normpath ("/" ++ String.concat "/" l) = "/" ++ String.concat "/" l
  /\ posixpath.normpath ("//" ++ String.concat "/" l)
     = "//" ++ String.concat "/" l.
Proof.
  intros Hl. destruct l as [| x l]; [split; reflexivity |].
  inversion Hl as [| ? ? Hx Hl']; subst.
  pose proof (concat_head_not_sep x l Hx) as Hst.
  pose proof (split_concat (x :: l) ltac:(discriminate) Hl) as Hsp.
  destruct (initial_slashes_root _ Hst) as [Hi1 Hi2].
  split.
  - change ("/" ++ String.concat "/" (x :: l))
      with (String "/" (String.concat "/" (x :: l))).
    rewrite (normpath_absolute (String "/" (String.concat "/" (x :: l)))
               eq_refl).
    unfold root. rewrite Hi1.
    cbn [Z.eqb Pos.eqb].
    change (split posixpath.sep (String "/" (String.concat "/" (x :: l))))
      with (EmptyString :: split posixpath.sep (String.concat "/" (x :: l))).
    rewrite Hsp.
    change (fold_left (posixpath.normpath_step 1) ("" :: x :: l) [])
      with (fold_left (posixpath.normpath_step 1) (x :: l) []).
    rewrite fold_file_names by exact Hl. reflexivity.
  - change ("//" ++ String.concat "/" (x :: l))
      with (String "/" (String "/" (String.concat "/" (x :: l)))).
    rewrite (normpath_absolute
               (String "/" (String "/" (String.concat "/" (x :: l))))
               eq_refl).
    unfold root. rewrite Hi2.
    cbn [Z.eqb Pos.eqb].
    change (split posixpath.sep
              (String "/" (String "/" (String.concat "/" (x :: l)))))
      with (EmptyString :: EmptyString
              :: split posixpath.sep (String.concat "/" (x :: l))).
    rewrite Hsp.
    change (fold_left (posixpath.normpath_step 2) ("" :: "" :: x :: l) [])
      with (fold_left (posixpath.normpath_step 2) (x :: l) []).
    rewrite fold_file_names by exact Hl. reflexivity.
Qed.

Lemma normpath_absolute_shape (p : string) :
  posixpath.isabs p = true ->
  exists l,
    Forall (fun x => file_name x = true) l
    /\ (posixpath.normpath p = "/" ++ String.concat "/" l
        \/ posixpath.normpath p = "//" ++ String.concat "/" l).
Proof.
  intros Ha.
  exists (fold_left (posixpath.normpath_step (posixpath.initial_slashes p))
            (split posixpath.sep p) []).
  split.
  - apply normpath_absolute_components.
    + apply initial_slashes_nonzero. exact Ha.
    + apply split_pieces_without_sep.
    + constructor.
  - rewrite (normpath_absolute p Ha). unfold root.
    destruct (posixpath.initial_slashes p =? 1)%Z; [left | right]; reflexivity.
Qed.

Lemma normpath_idempotent_absolute (p : string) :
  posixpath.isabs p = true ->
  posixpath.isabs (posixpath.normpath p) = true
  /\ posixpath.normpath (posixpath.normpath p) = posixpath.normpath p.
Proof.
  intros Ha. destruct (normpath_absolute_shape p Ha) as [l [Hl [-> | ->]]].
  - split; [reflexivity |]. apply (normpath_of_root_and_names l Hl).
  - split; [reflexivity |]. apply (normpath_of_root_and_names l Hl).
Qed.

Lemma isabs_app (a b : string) :
  posixpath.isabs a = true -> posixpath.isabs (a ++ b) = true.
Proof.
  intros Ha. destruct (isabs_inv a Ha) as [q ->]. reflexivity.
Qed.

Lemma join_absolute (E t : string) :
  posixpath.isabs E = true ->
  posixpath.isabs (posixpath.join E t) = true.
Proof.
  intros Ha. unfold posixpath.join.
  destruct (startswith t "/") eqn:Ht; [exact Ht |].
  destruct ((E =? "") || endswith_char E posixpath.sep);
    apply isabs_app; exact Ha.
Qed.

Lemma abspath_absolute (cwd d : string) :
  posixpath.isabs cwd = true ->
  posixpath.isabs (posixpath.abspath cwd d) = true
  /\ posixpath.normpath (posixpath.abspath cwd d) = posixpath.abspath cwd d.
Proof.
  intros Hc. unfold posixpath.abspath.
  apply normpath_idempotent_absolute.
  destruct (posixpath.isabs d) eqn:Hd; [exact Hd |].
  apply join_absolute. exact Hc.
Qed.

Lemma names_do_not_end_in_sep (r : string) (l : list string) :
  l <> [] ->
  Forall (fun x => file_name x = true) l ->
  endswith_char (r ++ String.concat "/" l) posixpath.sep = false.
Proof.
  intros Hne Hl. destruct (exists_last Hne) as [l' [x ->]].
  apply Forall_app in Hl. destruct Hl as [_ Hx].
  inversion Hx as [| ? ? Hfx _]; subst.
  destruct (file_name_inv x Hfx) as [H0 [_ [_ Hsep]]].
  destruct (concat_snoc l' x) as [y [-> _]].
  rewrite <- append_assoc.
  rewrite endswith_char_app
    by (intros ->; discriminate H0).
  destruct (endswith_char x posixpath.sep) eqn:He; [| reflexivity].
  apply endswith_char_contains in He. congruence.
Qed.

Lemma normpath_skipped_component (p t : string) :
  posixpath.isabs p = true ->
  endswith_char p posixpath.sep = false ->
  t = "" \/ t = "." ->
  posixpath.normpath (p ++ String "/" t) = posixpath.normpath p.
Proof.
  intros Ha He Ht.
  assert (Ha' : posixpath.isabs (p ++ String "/" t) = true)
    by (apply isabs_app; exact Ha).
  rewrite (normpath_absolute _ Ha'), (normpath_absolute _ Ha).
  unfold root. rewrite (initial_slashes_before_sep p t Ha He).
  change (String "/" t) with (String posixpath.sep t).
  rewrite split_at_sep, fold_left_app.
  destruct Ht as [-> | ->]; reflexivity.
Qed.

Lemma normpath_join_blank (D t : string) :
  posixpath.isabs D = true ->
  posixpath.normpath D = D ->
  t = "" \/ t = "." ->
  posixpath.normpath (posixpath.join D t) = D.
Proof.
  intros Ha Hn Ht.
  destruct (normpath_absolute_shape D Ha) as [l [Hl Hshape]].
  rewrite Hn in Hshape.
  destruct l as [| x l].
  - destruct Hshape as [-> | ->]; destruct Ht as [-> | ->]; reflexivity.
  - assert (He : endswith_char D posixpath.sep = false).
    { destruct Hshape as [-> | ->];
        apply names_do_not_end_in_sep; (discriminate || exact Hl). }
    assert (Hj : posixpath.join D t = D ++ String "/" t).
    { unfold posixpath.join. rewrite He.
      destruct (isabs_inv D Ha) as [q ->].
      destruct Ht as [-> | ->]; reflexivity. }
    rewrite Hj, normpath_skipped_component by assumption. exact Hn.
Qed.

(** *** [dirname] of an origin *)

Lemma rfind_from_absent (c : ascii) (s : string) (i last : Z) :
  contains_char c s = false -> rfind_from c s i last = last.
Proof.
  revert i last. induction s as [| d s IH]; intros i last Hc; simpl;
    [reflexivity |].
  cbn [contains_char] in Hc. apply orb_false_iff in Hc.
  destruct Hc as [Hd Hc]. rewrite Hd. apply IH. exact Hc.
Qed.

Lemma rfind_from_last (c : ascii) (a f : string) (i last : Z) :
  contains_char c f = false ->
  rfind_from c (a ++ String c f) i last = (i + Z.of_nat (String.length a))%Z.
Proof.
  intros Hf. revert i last.
  induction a as [| x a IH]; intros i last.
  - cbn [append rfind_from String.length]. rewrite Ascii.eqb_refl.
    rewrite rfind_from_absent by exact Hf. cbn. lia.
  - cbn [append rfind_from String.length]. rewrite IH. lia.
Qed.

Lemma substring_prefix (a b : string) :
  substring 0 (String.length a) (a ++ b) = a.
Proof.
  induction a as [| x a IH]; simpl.
  - destruct b; reflexivity.
  - rewrite IH. reflexivity.
Qed.

Lemma length_snoc (a : string) (c : ascii) :
  String.length (a ++ String c "") = S (String.length a).
Proof.
  induction a as [| x a IH]; simpl; [reflexivity | rewrite IH; reflexivity].
Qed.

Lemma head_of_origin (d f : string) :
  contains_char posixpath.sep f = false ->
  slice_to (d ++ String posixpath.sep f)
    (rfind (d ++ String posixpath.sep f) posixpath.sep + 1)
  = d ++ String posixpath.sep "".
Proof.
  intros Hf. unfold rfind, slice_to.
  rewrite rfind_from_last by exact Hf.
  replace (Z.to_nat (0 + Z.of_nat (String.length d) + 1))
    with (String.length (d ++ String posixpath.sep ""))
    by (rewrite length_snoc; lia).
  replace (d ++ String posixpath.sep f)
    with ((d ++ String posixpath.sep "") ++ f)
    by (rewrite append_assoc; reflexivity).
  apply substring_prefix.
Qed.

Lemma dirname_strips_last_component (d f : string) :
  contains_char posixpath.sep f = false ->
  posixpath.dirname (d ++ "/" ++ f) = posixpath.dirname (d ++ "/").
Proof.
  intros Hf. unfold posixpath.dirname.
  change (d ++ "/" ++ f) with (d ++ String posixpath.sep f).
  change (d ++ "/") with (d ++ String posixpath.sep "").
  rewrite (head_of_origin d f Hf), (head_of_origin d "" eq_refl).
  reflexivity.
Qed.

Lemma all_char_with_other (c : ascii) (d x : string) :
  d <> "" -> endswith_char d c = false -> all_char c (d ++ x) = false.
Proof.
  induction d as [| y d IH]; intros Hne He; [contradiction |].
  cbn [append all_char]. destruct d as [| z d].
  - cbn [endswith_char] in He. rewrite He. reflexivity.
  - rewrite IH; [apply andb_false_r | discriminate | exact He].
Qed.

Lemma rstrip_char_snoc (c : ascii) (d : string) :
  rstrip_char c (d ++ String c "") = rstrip_char c d.
Proof.
  induction d as [| x d IH]; cbn [append rstrip_char].
  - rewrite Ascii.eqb_refl. reflexivity.
  - rewrite IH. reflexivity.
Qed.

Lemma rstrip_char_unchanged (c : ascii) (d : string) :
  endswith_char d c = false -> rstrip_char c d = d.
Proof.
  induction d as [| x d IH]; intros He; [reflexivity |].
  cbn [rstrip_char]. destruct d as [| y d].
  - cbn [endswith_char] in He. cbn [rstrip_char]. rewrite He. reflexivity.
  - rewrite IH by exact He. reflexivity.
Qed.

Lemma dirname_of_directory (d : string) :
  d <> "" -> endswith_char d posixpath.sep = false ->
  posixpath.dirname (d ++ "/") = d.
Proof.
  intros Hne He. unfold posixpath.dirname.
  change (d ++ "/") with (d ++ String posixpath.sep "").
  rewrite (head_of_origin d "" eq_refl).
  rewrite (all_char_with_other _ d _ Hne He).
  destruct d as [| x d]; [contradiction |].
  cbn [append String.eqb negb andb].
  change (String x (d ++ String posixpath.sep ""))
    with (String x d ++ String posixpath.sep "").
  rewrite rstrip_char_snoc. apply rstrip_char_unchanged. exact He.
Qed.

Lemma dirname_of_bare_name (f : string) :
  contains_char posixpath.sep f = false -> posixpath.dirname f = "".
Proof.
  intros Hf. unfold posixpath.dirname, rfind, slice_to.
  rewrite rfind_from_absent by exact Hf.
  change (Z.to_nat (-1 + 1)) with 0%nat.
  destruct f; reflexivity.
Qed.

(** *** What [__path__] returns *)

Lemma resolve_relative_absolute (cwd : string) (glob_escape : string -> string)
  (escapeOrigin : bool) (o text : string) :
  posixpath.isabs cwd = true ->
  (escapeOrigin = true ->
   posixpath.isabs (glob_escape (containing_directory cwd o)) = true) ->
  posixpath.isabs (resolve_relative cwd glob_escape escapeOrigin o text) = true
  /\ posixpath.normpath (resolve_relative cwd glob_escape escapeOrigin o text)
     = resolve_relative cwd glob_escape escapeOrigin o text.
Proof.
  intros Hc He. unfold resolve_relative, join_and_normalize.
  apply normpath_idempotent_absolute. apply join_absolute.
  unfold escape_directory. destruct escapeOrigin.
  - apply He. reflexivity.
  - apply abspath_absolute. exact Hc.
Qed.

Lemma path_result_absolute (cwd : string) (glob_escape : string -> string)
  (self : Setting.receiver) (origin : option string) (p : string) :
  posixpath.isabs cwd = true ->
  Setting.__path__ cwd glob_escape self origin false = Ok p ->
  posixpath.isabs p = true.
Proof.
  intros Hc Hp.
  destruct (Setting.receiver_str self) as [text | e] eqn:Hs;
    [| unfold Setting.__path__ in Hp; rewrite Hs in Hp; discriminate Hp].
  destruct (posixpath.isabs (strip text)) eqn:Ha.
  - rewrite (path_absolute cwd glob_escape self text origin false Hs Ha) in Hp.
    inversion Hp; subst. exact Ha.
  - rewrite (path_relative cwd glob_escape self text origin false Hs Ha) in Hp.
    destruct (effective_origin (Setting.receiver_origin self) origin);
      [| discriminate Hp].
    inversion Hp; subst.
    apply resolve_relative_absolute; [exact Hc | discriminate].
Qed.

(** X1: a text that is not absolute resolves to an absolute path on which
    [normpath] changes nothing, provided the working directory is absolute
    and, when the origin is escaped, the escaped directory still is. *)
Theorem relative_text_resolves_to_absolute_normalized_path :
  forall cwd glob_escape self text explicitOrigin o escapeOrigin,
    posixpath.isabs cwd = true ->
    Setting.receiver_str self = Ok text ->
    posixpath.isabs (strip text) = false ->
    effective_origin (Setting.receiver_origin self) explicitOrigin = Some o ->
    (escapeOrigin = true ->
     posixpath.isabs (glob_escape (containing_directory cwd o)) = true) ->
    exists p,
      Setting.__path__ cwd glob_escape self explicitOrigin escapeOrigin = Ok p
      /\ posixpath.isabs p = true
      /\ posixpath.normpath p = p.
Proof.
  intros cwd ge self text explicit o esc Hc Hs Ha Ho He.
  exists (resolve_relative cwd ge esc o text).
  rewrite (path_relative cwd ge self text explicit esc Hs Ha), Ho.
  split; [reflexivity |].
  apply resolve_relative_absolute; assumption.
Qed.

Lemma relative_text_resolves_to_absolute_normalized_path_witness :
  exists p,
    Setting.__path__ "/w" Globbing.glob_escape (Setting.OfStr "a/../b//c.py")
      (Some "sub/./o.cfg") true
    = Ok p
    /\ posixpath.isabs p = true /\ posixpath.normpath p = p.
Proof.
  apply (relative_text_resolves_to_absolute_normalized_path "/w"
           Globbing.glob_escape (Setting.OfStr "a/../b//c.py")
           "a/../b//c.py" (Some "sub/./o.cfg") "sub/./o.cfg" true);
    reflexivity.
Defined.

(** X2: with an absolute working directory every path that [__path__]
    returns without escaping is absolute, and so is every element of a
    path list. *)
Theorem resolved_paths_are_absolute :
  forall cwd glob_escape,
    posixpath.isabs cwd = true ->
    (forall self origin p,
        Setting.__path__ cwd glob_escape self origin false = Ok p ->
        posixpath.isabs p = true)
    /\ (forall s ps,
           Setting.__path_list__ cwd glob_escape s = Ok ps ->
           Forall (fun p => posixpath.isabs p = true) ps).
Proof.
  intros cwd ge Hc. split.
  - intros self origin p. apply path_result_absolute. exact Hc.
  - intros s ps Hps. unfold Setting.__path_list__ in Hps.
    destruct (Setting.__iter__ s true) as [elems | e]; [| discriminate Hps].
    cbn [bind] in Hps. revert ps Hps.
    induction elems as [| x r IH]; intros ps Hps; cbn [comprehension] in Hps.
    + inversion Hps. constructor.
    + destruct (Setting.__path__ cwd ge (Setting.OfStr x)
                  (Some (Setting.origin s)) false) as [p |] eqn:Hp;
        [| discriminate Hps].
      cbn [bind] in Hps.
      destruct (comprehension _ r) as [ps' |]; [| discriminate Hps].
      inversion Hps; subst. constructor.
      * exact (path_result_absolute cwd ge _ _ p Hc Hp).
      * apply IH. reflexivity.
Qed.

Lemma resolved_paths_are_absolute_witness :
  Forall (fun p => posixpath.isabs p = true)
    ["/w/conf/a.py"; "/etc/b.py"; "/w"].
Proof.
  destruct (resolved_paths_are_absolute "/w" Globbing.glob_escape eq_refl)
    as [_ H].
  apply (H (Setting.mk (StringConverter.new "a.py, /etc/b.py, ..") false
              false "files" (Setting.OriginStr "conf/coafile") 1)).
  reflexivity.
Defined.

(** X3: a path that [__path__] returned resolves to itself, whatever
    origin, working directory and escaping the second call gets, when it
    does not end in whitespace. *)
Theorem resolving_a_resolved_path_changes_nothing :
  forall cwd glob_escape self origin p,
    posixpath.isabs cwd = true ->
    Setting.__path__ cwd glob_escape self origin false = Ok p ->
    rstrip p = p ->
    forall cwd' glob_escape' origin' escapeOrigin',
      Setting.__path__ cwd' glob_escape' (Setting.OfStr p) origin'
        escapeOrigin'
      = Ok p.
Proof.
  intros cwd ge self origin p Hc Hp Hr cwd' ge' origin' esc'.
  pose proof (path_result_absolute cwd ge self origin p Hc Hp) as Ha.
  destruct (strip_absolute p Ha) as [Hs Ha'].
  rewrite (path_absolute cwd' ge' (Setting.OfStr p) p origin' esc' eq_refl Ha').
  rewrite Hs, Hr. reflexivity.
Qed.

Lemma resolving_a_resolved_path_changes_nothing_witness :
  Setting.__path__ "/elsewhere" Globbing.glob_escape
    (Setting.OfStr "/w/conf/a[1].py") None true
  = Ok "/w/conf/a[1].py".
Proof.
  apply (resolving_a_resolved_path_changes_nothing "/w" (fun d => d)
           (Setting.OfStr " a[1].py") (Some "conf/coafile")
           "/w/conf/a[1].py" eq_refl eq_refl eq_refl).
Defined.

(** X4: a text that is empty, blank or ["."] resolves to the origin's
    directory in absolute form, and with escaping to the escaped directory
    when that is an absolute normalized path. *)
Theorem blank_text_resolves_to_origin_directory :
  forall cwd glob_escape self text explicitOrigin o,
    posixpath.isabs cwd = true ->
    Setting.receiver_str self = Ok text ->
    strip text = "" \/ strip text = "." ->
    effective_origin (Setting.receiver_origin self) explicitOrigin = Some o ->
    Setting.__path__ cwd glob_escape self explicitOrigin false
    = Ok (containing_directory cwd o)
    /\ (posixpath.isabs (glob_escape (containing_directory cwd o)) = true ->
        posixpath.normpath (glob_escape (containing_directory cwd o))
        = glob_escape (containing_directory cwd o) ->
        Setting.__path__ cwd glob_escape self explicitOrigin true
        = Ok (glob_escape (containing_directory cwd o))).
Proof.
  intros cwd ge self text explicit o Hc Hs Ht Ho.
  assert (Ha : posixpath.isabs (strip text) = false)
    by (destruct Ht as [-> | ->]; reflexivity).
  destruct (abspath_absolute cwd (posixpath.dirname o) Hc) as [HDa HDn].
  split.
  - rewrite (path_relative cwd ge self text explicit false Hs Ha), Ho.
    unfold resolve_relative, escape_directory, join_and_normalize.
    rewrite normpath_join_blank; [reflexivity | exact HDa | exact HDn | exact Ht].
  - intros HEa HEn.
    rewrite (path_relative cwd ge self text explicit true Hs Ha), Ho.
    unfold resolve_relative, escape_directory, join_and_normalize.
    rewrite normpath_join_blank; [reflexivity | exact HEa | exact HEn | exact Ht].
Qed.

Lemma blank_text_resolves_to_origin_directory_witness :
  Setting.__path__ "/w" Globbing.glob_escape (Setting.OfStr "  ")
    (Some "conf/sub/../coafile") false
  = Ok "/w/conf".
Proof.
  destruct (blank_text_resolves_to_origin_directory "/w" Globbing.glob_escape
              (Setting.OfStr "  ") "  " (Some "conf/sub/../coafile")
              "conf/sub/../coafile" eq_refl eq_refl (or_introl eq_refl)
              eq_refl) as [H _].
  exact H.
Defined.

(** *** The origin of a setting *)

(** X5: the last component of an origin is stripped off: an origin
    [dir/file] acts as the directory origin [dir/], for single elements
    and for path lists, and that directory is [abspath(dir)]. *)
Theorem origin_last_component_is_stripped :
  forall cwd glob_escape d f,
    contains_char posixpath.sep f = false ->
    (forall elem escapeOrigin,
        Setting.__path__ cwd glob_escape (Setting.OfStr elem)
          (Some (d ++ "/" ++ f)) escapeOrigin
        = Setting.__path__ cwd glob_escape (Setting.OfStr elem)
            (Some (d ++ "/")) escapeOrigin)
    /\ (forall s s',
           Setting.base s = Setting.base s' ->
           Setting.to_append s = Setting.to_append s' ->
           Setting.origin s = d ++ "/" ++ f ->
           Setting.origin s' = d ++ "/" ->
           Setting.__path_list__ cwd glob_escape s
           = Setting.__path_list__ cwd glob_escape s'
           /\ Setting.__glob_list__ cwd glob_escape s
              = Setting.__glob_list__ cwd glob_escape s')
    /\ (d <> "" -> endswith_char d posixpath.sep = false ->
        containing_directory cwd (d ++ "/" ++ f) = posixpath.abspath cwd d).
Proof.
  intros cwd ge d f Hf.
  assert (Hel : forall esc elem,
             resolve_element cwd ge esc (d ++ "/" ++ f) elem
             = resolve_element cwd ge esc (d ++ "/") elem).
  { intros esc elem.
    unfold resolve_element, resolve_relative, containing_directory.
    rewrite (dirname_strips_last_component d f Hf). reflexivity. }
  split; [| split].
  - intros elem esc. rewrite !path_of_element, Hel. reflexivity.
  - intros s s' Hb Ht Ho Ho'.
    rewrite !path_list_elements, !glob_list_elements.
    unfold Setting.__iter__. rewrite Hb, Ht, Ho, Ho'.
    destruct (Setting.to_append s'); cbn [bind]; [split; reflexivity |].
    split.
    + rewrite (map_ext _ _ (Hel false)). reflexivity.
    + rewrite (map_ext _ _ (Hel true)). reflexivity.
  - intros Hne He. unfold containing_directory.
    rewrite (dirname_strips_last_component d f Hf).
    rewrite (dirname_of_directory d Hne He). reflexivity.
Qed.

Lemma origin_last_component_is_stripped_witness :
  Setting.__path__ "/w" Globbing.glob_escape (Setting.OfStr "a.py")
    (Some "/x/y/origin.cfg") false
  = Setting.__path__ "/w" Globbing.glob_escape (Setting.OfStr "a.py")
      (Some "/x/y/") false
  /\ containing_directory "/w" "/x/y/origin.cfg"
     = posixpath.abspath "/w" "/x/y".
Proof.
  destruct (origin_last_component_is_stripped "/w" Globbing.glob_escape
              "/x/y" "origin.cfg" eq_refl) as [H1 [_ H3]].
  split.
  - apply (H1 "a.py" false).
  - apply H3; [discriminate | reflexivity].
Defined.

(** X6: when the origin of a setting is a bare file name, without a
    directory part, the elements of its path list that are not absolute
    are resolved against the working directory, and those of its glob
    list against the escaped working directory. *)
Theorem bare_origin_resolves_against_working_directory :
  forall cwd glob_escape s,
    Setting.to_append s = false ->
    contains_char posixpath.sep (Setting.origin s) = false ->
    posixpath.isabs cwd = true ->
    posixpath.normpath cwd = cwd ->
    Setting.__path_list__ cwd glob_escape s
    = Ok (map (fun elem =>
                 if posixpath.isabs (strip elem) then strip elem
                 else join_and_normalize cwd (strip elem))
            (StringConverter.__iter__ (Setting.base s) true))
    /\ Setting.__glob_list__ cwd glob_escape s
       = Ok (map (fun elem =>
                    if posixpath.isabs (strip elem) then strip elem
                    else join_and_normalize (glob_escape cwd) (strip elem))
               (StringConverter.__iter__ (Setting.base s) true)).
Proof.
  intros cwd ge s Hta Ho Ha Hn.
  rewrite path_list_elements, glob_list_elements.
  unfold Setting.__iter__. rewrite Hta. cbn [bind].
  unfold resolve_element, resolve_relative, escape_directory,
    containing_directory.
  rewrite (dirname_of_bare_name _ Ho), (abspath_of_empty cwd Ha Hn).
  split; reflexivity.
Qed.

Lemma bare_origin_resolves_against_working_directory_witness :
  Setting.__glob_list__ "/w/[d]" Globbing.glob_escape
    (Setting.mk (StringConverter.new "*.py, /etc/b.py") false false "files"
       (Setting.OriginStr ".coafile") 1)
  = Ok ["/w/\[d\]/*.py"; "/etc/b.py"].
Proof.
  destruct (bare_origin_resolves_against_working_directory "/w/[d]"
              Globbing.glob_escape
              (Setting.mk (StringConverter.new "*.py, /etc/b.py") false false
                 "files" (Setting.OriginStr ".coafile") 1)
              eq_refl eq_refl eq_refl eq_refl) as [_ H].
  exact H.
Defined.

(** X7: the two list methods raise exactly when the setting is
    append-pending, and then the exception of the iteration; otherwise
    each returns one path per iterated element.  No origin makes them
    raise. *)
Theorem path_lists_fail_exactly_when_append_pending :
  forall cwd glob_escape s,
    if Setting.to_append s then
      Setting.__path_list__ cwd glob_escape s
      = Raise Setting.IncompleteValueError_iteration
      /\ Setting.__glob_list__ cwd glob_escape s
         = Raise Setting.IncompleteValueError_iteration
    else
      exists ps gs,
        Setting.__path_list__ cwd glob_escape s = Ok ps
        /\ Setting.__glob_list__ cwd glob_escape s = Ok gs
        /\ List.length ps
           = List.length (StringConverter.__iter__ (Setting.base s) true)
        /\ List.length gs
           = List.length (StringConverter.__iter__ (Setting.base s) true).
Proof.
  intros cwd ge s.
  rewrite path_list_elements, glob_list_elements.
  unfold Setting.__iter__.
  destruct (Setting.to_append s); cbn [bind].
  - split; reflexivity.
  - eexists; eexists. repeat split; apply length_map.
Qed.

(* ================================================================== *)
(** ** Further properties of the converters and of the setting *)

Lemma comprehension_raises {A B : Type} (f : A -> result B) (l : list A)
  (e : exn) :
  comprehension f l = Raise e <->
  exists l1 x l2,
    l = (l1 ++ x :: l2)%list
    /\ (forall y, In y l1 -> exists b, f y = Ok b)
    /\ f x = Raise e.
Proof.
  split.
  - induction l as [| x r IH]; cbn [comprehension]; [discriminate |].
    destruct (f x) as [b | e'] eqn:Hx; cbn [bind].
    + destruct (comprehension f r) as [ys | e'']; cbn [bind];
        [discriminate |].
      intros He. destruct (IH He) as [l1 [x' [l2 [-> [Hl1 Hx']]]]].
      exists (x :: l1), x', l2. split; [reflexivity |]. split; [| exact Hx'].
      intros y [<- | Hy]; [exists b; exact Hx | apply Hl1; exact Hy].
    + intros He. inversion He; subst.
      exists [], x, r. split; [reflexivity |]. split; [| exact Hx].
      intros y [].
  - intros [l1 [x [l2 [-> [Hl1 Hx]]]]].
    induction l1 as [| y l1 IH]; cbn [app comprehension].
    + rewrite Hx. reflexivity.
    + destruct (Hl1 y (or_introl eq_refl)) as [b ->]. cbn [bind].
      rewrite IH by (intros z Hz; apply Hl1; right; exact Hz).
      reflexivity.
Qed.

(** X8: on a setting that is not append-pending, [typed_list f] raises
    exactly when some element does not convert, and then the exception of
    the first such element: the elements before it converted, those after
    it are not looked at. *)
Theorem typed_list_raises_at_first_bad_element :
  forall (A : Type) (f : StringConverter.t -> result A) (s : Setting.t)
         (e : exn),
    Setting.to_append s = false ->
    (typed_list f s = Raise e <->
     exists l1 x l2,
       StringConverter.__iter__ (Setting.base s) true = (l1 ++ x :: l2)%list
       /\ (forall y, In y l1 -> exists b, f (StringConverter.new y) = Ok b)
       /\ f (StringConverter.new x) = Raise e).
Proof.
  intros A f s e Hta. unfold typed_list, Setting.__iter__. rewrite Hta.
  cbn [bind]. apply comprehension_raises.
Qed.

Lemma typed_list_raises_at_first_bad_element_witness :
  int_list
    (Setting.mk (StringConverter.new "1, x, y") false false "numbers"
       (Setting.OriginStr "") 1)
  = Raise (invalid_literal "x").
Proof.
  apply (typed_list_raises_at_first_bad_element Z int_
           (Setting.mk (StringConverter.new "1, x, y") false false "numbers"
              (Setting.OriginStr "") 1)
           (invalid_literal "x") eq_refl).
  exists ["1"], "x", ["y"]. split; [reflexivity |]. split; [| reflexivity].
  intros y [<- | []]. exists 1%Z. reflexivity.
Defined.

Section DictFailures.

Context {K V : Type} `{EqDec K}.
Variable key_type : StringConverter.t -> result K.
Variable value_type : StringConverter.t -> result V.
Variable default : V.

Lemma dict_comprehension_converts_first (items : list (string * string))
  (d : dict K V) :
  dict_comprehension
    (fun kv => key_type (StringConverter.new (fst kv)))
    (fun kv => value_or_default value_type default (snd kv))
    items d
  = (l <- comprehension (convert_entry key_type value_type default) items ;;
     Ok (fold_left (fun d kv => setitem d (fst kv) (snd kv)) l d)).
Proof.
  revert d. induction items as [| kv r IH]; intros d;
    cbn [dict_comprehension comprehension bind]; [reflexivity |].
  unfold convert_entry at 1.
  destruct (key_type (StringConverter.new (fst kv))) as [k | e];
    cbn [bind]; [| reflexivity].
  destruct (value_or_default value_type default (snd kv)) as [v | e];
    cbn [bind]; [| reflexivity].
  rewrite IH.
  destruct (comprehension (convert_entry key_type value_type default) r);
    reflexivity.
Qed.

Lemma get_setitem (d : dict K V) (k k' : K) (v : V) :
  get (setitem d k v) k' = if eq_dec k k' then Some v else get d k'.
Proof.
  induction d as [| [k0 v0] r IH]; cbn [setitem get].
  - destruct (eq_dec k k'); reflexivity.
  - destruct (eq_dec k0 k) as [-> | Hne]; cbn [get].
    + destruct (eq_dec k k'); reflexivity.
    + rewrite IH. destruct (eq_dec k0 k') as [-> | _]; [| reflexivity].
      destruct (eq_dec k k'); [congruence | reflexivity].
Qed.

Lemma get_after_items (l : list (K * V)) (d : dict K V) (k : K) :
  get (fold_left (fun d kv => setitem d (fst kv) (snd kv)) l d) k
  = fold_left (fun acc kv => if eq_dec (fst kv) k then Some (snd kv) else acc)
      l (get d k).
Proof.
  revert d. induction l as [| [k1 v1] r IH]; intros d; cbn [fold_left];
    [reflexivity |].
  rewrite IH, get_setitem. reflexivity.
Qed.

Lemma keys_of_setitem (d : dict K V) (k x : K) (v : V) :
  In x (map fst (setitem d k v)) <-> x = k \/ In x (map fst d).
Proof.
  induction d as [| [k0 v0] r IH]; cbn [setitem map fst In].
  - intuition auto.
  - destruct (eq_dec k0 k) as [-> | Hne]; cbn [map fst In].
    + intuition auto.
    + rewrite IH. intuition auto.
Qed.

Lemma setitem_keeps_keys_distinct (d : dict K V) (k : K) (v : V) :
  NoDup (map fst d) -> NoDup (map fst (setitem d k v)).
Proof.
  induction d as [| [k0 v0] r IH]; cbn [setitem map fst]; intros Hnd.
  - constructor; [intros [] | constructor].
  - inversion Hnd as [| ? ? Hfresh Hnd']; subst.
    destruct (eq_dec k0 k) as [-> | Hne]; cbn [map fst].
    + constructor; assumption.
    + constructor; [| apply IH; exact Hnd'].
      rewrite keys_of_setitem. intros [Heq | Hin]; [| contradiction].
      apply Hne. exact Heq.
Qed.

Lemma items_keep_keys_distinct (l : list (K * V)) (d : dict K V) :
  NoDup (map fst d) ->
  NoDup (map fst (fold_left (fun d kv => setitem d (fst kv) (snd kv)) l d)).
Proof.
  revert d. induction l as [| kv r IH]; intros d Hnd; cbn [fold_left];
    [exact Hnd |].
  apply IH. apply setitem_keeps_keys_distinct. exact Hnd.
Qed.

End DictFailures.

(** X9: both dict converters first convert the entries of the mapping in
    order, stopping at the first entry that does not convert, and build the
    dict from the converted entries; so they raise exactly the exception of
    the first such entry and return nothing of what was converted before. *)
Theorem typed_dicts_convert_then_build :
  forall (K V : Type) (E : EqDec K)
         (key_type : StringConverter.t -> result K)
         (value_type : StringConverter.t -> result V) (default : V)
         (setting : list (string * string)),
    typed_dict key_type value_type default setting
    = (l <- comprehension (convert_entry key_type value_type default)
              (dict_of setting) ;;
       Ok (dict_of l))
    /\ typed_ordered_dict key_type value_type default setting
       = typed_dict key_type value_type default setting
    /\ forall e,
         typed_dict key_type value_type default setting = Raise e <->
         exists l1 x l2,
           dict_of setting = (l1 ++ x :: l2)%list
           /\ (forall y, In y l1 ->
                 exists kv,
                   convert_entry key_type value_type default y = Ok kv)
           /\ convert_entry key_type value_type default x = Raise e.
Proof.
  intros K V E key_type value_type default setting.
  assert (Heq : typed_dict key_type value_type default setting
                = (l <- comprehension
                          (convert_entry key_type value_type default)
                          (dict_of setting) ;;
                   Ok (dict_of l)))
    by apply dict_comprehension_converts_first.
  split; [exact Heq | split; [apply ordered_dict_is_comprehension |]].
  intros e. rewrite Heq, <- comprehension_raises.
  destruct (comprehension (convert_entry key_type value_type default)
              (dict_of setting)); cbn [bind]; split; intros Hr;
    (discriminate Hr || exact Hr).
Qed.

Lemma typed_dicts_convert_then_build_witness :
  typed_dict str_ int_ 0%Z [("a", "1"); ("b", "two"); ("c", "three")]
  = Raise (invalid_literal "two").
Proof.
  destruct (typed_dicts_convert_then_build string Z _ str_ int_ 0%Z
              [("a", "1"); ("b", "two"); ("c", "three")]) as [_ [_ H]].
  apply H. exists [("a", "1")], ("b", "two"), [("c", "three")].
  split; [reflexivity |]. split; [| reflexivity].
  intros y [<- | []]. exists ("a", 1%Z). reflexivity.
Defined.

(** X10: when the entries convert, the result of both dict converters
    holds every converted key once, and under each key the value of the
    last entry that converts to it. *)
Theorem typed_dicts_keep_the_last_entry_of_a_key :
  forall (K V : Type) (E : EqDec K)
         (key_type : StringConverter.t -> result K)
         (value_type : StringConverter.t -> result V) (default : V)
         (setting : list (string * string)) (l : list (K * V)),
    Forall2 (converts_to key_type value_type default) (dict_of setting) l ->
    exists d,
      typed_dict key_type value_type default setting = Ok d
      /\ typed_ordered_dict key_type value_type default setting = Ok d
      /\ NoDup (map fst d)
      /\ forall k, get d k = last_value l k.
Proof.
  intros K V E key_type value_type default setting l HF.
  exists (dict_of l).
  assert (Hd : typed_dict key_type value_type default setting
               = Ok (dict_of l))
    by (apply typed_dict_of_converted; exact HF).
  split; [exact Hd |].
  split; [rewrite <- Hd; apply ordered_dict_is_comprehension |].
  split.
  - unfold dict_of. apply items_keep_keys_distinct. constructor.
  - intros k. exact (get_after_items l [] k).
Qed.

Lemma typed_dicts_keep_the_last_entry_of_a_key_witness :
  exists d,
    typed_ordered_dict int_ str_ "" [("1", "a"); ("2", "b"); ("01", "c")]
    = Ok d
    /\ get d 1%Z = Some "c"
    /\ get d 2%Z = Some "b"
    /\ get d 3%Z = None.
Proof.
  destruct (typed_dicts_keep_the_last_entry_of_a_key Z string _ int_ str_ ""
              [("1", "a"); ("2", "b"); ("01", "c")]
              [(1%Z, "a"); (2%Z, "b"); (1%Z, "c")]) as [d [_ [Hd [_ Hg]]]].
  - repeat constructor; cbn; try reflexivity; try discriminate;
      intros Hne; exfalso; apply Hne; reflexivity.
  - exists d. rewrite !Hg. repeat split. exact Hd.
Defined.

(** X11: a setting constructed with a [SourcePosition] origin spans one
    line: its end line is its line, its origin is the file name of the
    position, and after [length] is set to [n] the lines from the line to
    the end line are [n]. *)
Theorem fresh_setting_spans_one_line :
  forall (K V : Type) (SK : Str K) (SV : Str V) (k : K) (v : V)
         (p : SourcePosition) sw ld fc re ta s,
    Setting.__init__ k v (Setting.OriginPos p) sw ld fc re ta = Ok s ->
    Setting.line_number s = Ok (line p)
    /\ Setting.end_line_number s = Ok (line p)
    /\ Setting.origin s = filename p
    /\ forall n e,
         Setting.end_line_number (Setting.set_length s n) = Ok e ->
         (e - line p + 1)%Z = n.
Proof.
  intros K V SK SV k v p sw ld fc re ta s.
  unfold Setting.__init__, Setting.set_key. cbn [Setting._key].
  destruct (str k =? ""); cbn [bind]; intros Hs; inversion Hs; subst.
  unfold Setting.line_number, Setting.end_line_number, Setting.origin.
  cbn [Setting._origin Setting.length Setting.set_length].
  repeat split.
  - f_equal. lia.
  - intros n e He. inversion He; subst. lia.
Qed.

Lemma fresh_setting_spans_one_line_witness :
  (s <- Setting.new "key" "value"
          (Setting.OriginPos {| filename := "/a/b/origin.cfg"; line := 7 |}) ;;
   Setting.end_line_number s)
  = Ok 7%Z.
Proof.
  assert (Hs : Setting.__init__ "key" "value"
                 (Setting.OriginPos
                    {| filename := "/a/b/origin.cfg"; line := 7 |})
                 true StringConverter.default_list_delimiters false true false
               = Ok (Setting.mk (StringConverter.new "value") false false
                       "key"
                       (Setting.OriginPos
                          {| filename := "/a/b/origin.cfg"; line := 7 |}) 1))
    by reflexivity.
  destruct (fresh_setting_spans_one_line string string _ _ "key" "value"
              {| filename := "/a/b/origin.cfg"; line := 7 |} true
              StringConverter.default_list_delimiters false true false _ Hs)
    as [_ [H _]].
  exact H.
Defined.

(** X12: on a constructed setting the key setter and getter round-trip:
    assigning the setting its own key changes nothing, and after any
    successful key change assigning the old key restores the setting. *)
Theorem key_assignment_round_trips :
  forall s : Setting.t,
    constructed s ->
    Setting.set_key s (Setting.key s) = Ok s
    /\ forall (K : Type) (SK : Str K) (k : K) s',
         Setting.set_key s k = Ok s' ->
         Setting.set_key s' (Setting.key s) = Ok s.
Proof.
  intros s Hc. pose proof (constructed_key_nonempty s Hc) as Hk.
  apply String.eqb_neq in Hk. unfold Setting.key in *.
  split.
  - unfold Setting.set_key. cbv beta zeta delta [str Str_string].
    rewrite Hk. destruct s; reflexivity.
  - intros K SK k s'. unfold Setting.set_key at 1.
    destruct (str k =? ""); intros Hs; inversion Hs; subst.
    unfold Setting.set_key. cbv beta zeta delta [str Str_string].
    rewrite Hk. destruct s; reflexivity.
Qed.

Lemma key_assignment_round_trips_witness :
  (s <- Setting.new "files" "a.py" (Setting.OriginStr "") ;;
   s' <- Setting.set_key s 12%Z ;;
   Setting.set_key s' "files")
  = Setting.new "files" "a.py" (Setting.OriginStr "").
Proof.
  assert (Hc : constructed
                 (Setting.mk (StringConverter.new "a.py") false false "files"
                    (Setting.OriginStr "") 1)).
  { apply (constructed_init string string _ _ "files" "a.py"
             (Setting.OriginStr "") true
             StringConverter.default_list_delimiters false true false).
    reflexivity. }
  destruct (key_assignment_round_trips _ Hc) as [_ H].
  exact (H Z _ 12%Z _ eq_refl).
Defined.
